(** * Microplastics and biomagnification: the notebook's arithmetic

    A shallow embedding of [microplastics_modeling.ipynb].  The notebook is a
    straight-line script: cell 6 binds the organism parameters, cell 8 the
    plastic-waste estimate, cell 9 the concentration of the Great Pacific
    Garbage Patch (GPGP), cell 10 the biomagnification factors (BMF) before
    and after the perturbation, and the percent changes given to the chart.

    The script is written once, over an interface [Number] of the arithmetic
    it uses, and read at two carriers:
    - [float]: IEEE 754 binary64, which is what Python and numpy evaluate;
    - [exact]: rationals in lowest terms, where a division by zero has no
      value, the reading in which the algebraic identities are stated. *)

From Stdlib Require Import ZArith QArith Qcanon Qround Field Lia Lqa List.
From Stdlib Require Import Floats.PrimFloat Floats.FloatOps Floats.SpecFloat.

Set Warnings "-inexact-float".

(** ** The arithmetic the notebook uses *)

(** [of_int] is the conversion of a Python [int] met in a float expression
    ([1 - du_az], [... * 12]); [to_int] is the builtin [int(x)], which
    truncates toward zero and raises on [nan] and on an infinity. *)
Class Number (T : Type) : Type := {
  nadd : T -> T -> T;
  nsub : T -> T -> T;
  nmul : T -> T -> T;
  ndiv : T -> T -> T;
  of_int : Z -> T;
  to_int : T -> option Z
}.

Declare Scope num_scope.
Delimit Scope num_scope with num.
Notation "x + y" := (nadd x y) : num_scope.
Notation "x - y" := (nsub x y) : num_scope.
Notation "x * y" := (nmul x y) : num_scope.
Notation "x / y" := (ndiv x y) : num_scope.

(** A decimal literal of the source, [0.96] or [1.6e12].  The decimal is the
    quotient of two integers; one division of the two, both below [2^53] for
    every literal of the notebook, rounds once, as the parser of Python
    does ([lit_binary64] checks it on each literal). *)
Definition lit {T : Type} `{Number T} (q : Q) : T :=
  (of_int (Qnum (Qred q)) / of_int (Zpos (Qden (Qred q))))%num.

(** ** numpy arrays of shape (3,)

    Every array of the notebook is built by [np.array] from a tuple of three
    numbers (protein, carbohydrates, lipids). *)
Record array3 (T : Type) : Type := np_array { item0 : T; item1 : T; item2 : T }.
Arguments np_array {T} _ _ _.
Arguments item0 {T} _.
Arguments item1 {T} _.
Arguments item2 {T} _.

Definition array_map {A B : Type} (f : A -> B) (x : array3 A) : array3 B :=
  np_array (f (item0 x)) (f (item1 x)) (f (item2 x)).

Section Numpy.
Context {T : Type} `{Number T}.
Local Open Scope num_scope.

(** [x * y] on two arrays: the product entry by entry. *)
Definition array_mul (x y : array3 T) : array3 T :=
  np_array (item0 x * item0 y) (item1 x * item1 y) (item2 x * item2 y).

(** [x + c] with a scalar [c]: the scalar is broadcast to every entry. *)
Definition array_add_scalar (x : array3 T) (c : T) : array3 T :=
  np_array (item0 x + c) (item1 x + c) (item2 x + c).

(** [np.sum(x)]: the reduction of [add] starts from its identity and adds
    the entries in order. *)
Definition np_sum (x : array3 T) : T :=
  of_int 0 + item0 x + item1 x + item2 x.

(** [x.dot(y)]: the accumulator starts at zero and receives the products in
    order, each product and each sum rounded at binary64; the recorded run
    agrees with this ([recorded_output]).  A BLAS that fuses the product and
    the sum rounds once where this rounds twice, and can differ in the last
    digit on other inputs; over the rationals the two are the same. *)
Definition dot (x y : array3 T) : T :=
  of_int 0 + item0 x * item0 y + item1 x * item1 y + item2 x * item2 y.
End Numpy.

Declare Scope array_scope.
Delimit Scope array_scope with array.
Notation "x [*] y" := (array_mul x y) (at level 40, left associativity) : array_scope.
Notation "x [+] c" := (array_add_scalar x c) (at level 50, left associativity) : array_scope.

(** ** The notebook, cell by cell *)

Module Notebook.
Section Cells.
Context {T : Type} `{Number T}.
Local Open Scope num_scope.
Local Open Scope array_scope.

(** Cell 6: parameters. *)
Definition du_gamma : T := lit 0.01.
Definition du_a : array3 T := np_array (lit 0.96) (lit 0.96) (lit 0.96).
Definition du_phi : array3 T := np_array (lit 0.16) (lit 0.61) (lit 0.01).

Definition sq_gamma : T := lit 0.12.
Definition sq_a : array3 T := np_array (lit 0.95) (of_int 0) (lit 0.85).
Definition sq_phi : array3 T := np_array (lit 0.66) (lit 0.05) (lit 0.14).

Definition th_gamma : T := lit 0.12.
Definition th_a : array3 T := np_array (lit 0.85) (lit 0.62) (lit 0.96).
Definition th_phi : array3 T := np_array (lit 0.5) (of_int 0) (lit 0.31).

Definition z : array3 T := np_array (lit 0.05) (lit 0.1) (of_int 1).

Definition lam : T := lit 1e5.

(** Cell 8: plastic waste of the straws. *)
Definition avg_boba_per_month : Z := 5.
Definition vol_plastic_per_straw : T := lit 0.016.
Definition num_students : Z := 43000.

Definition plastic_waste_per_year : T :=
  of_int (num_students * avg_boba_per_month) * vol_plastic_per_straw * of_int 12.
Definition ocean_plastic_per_year : T := lit 0.03 * plastic_waste_per_year.

(** The two arguments of [format] in the printed sentence. *)
Definition report : option Z * option Z :=
  (to_int plastic_waste_per_year, to_int ocean_plastic_per_year).

(** Cell 9: concentration in the GPGP. *)
Definition gpgp_surf_area : T := lit 1.6e12.
Definition gpgp_cur_plastic : T := lit 7.9e7 / lit 0.92.
Definition gpgp_cur_plastic_conc : T := gpgp_cur_plastic / gpgp_surf_area.
Definition gpgp_new_plastic : T :=
  gpgp_cur_plastic + lit 0.29 * ocean_plastic_per_year.
Definition gpgp_new_plastic_conc : T := gpgp_new_plastic / gpgp_surf_area.
Definition delta_gpgp_plastic_conc : T :=
  gpgp_new_plastic_conc - gpgp_cur_plastic_conc.

(** Cell 10: the baseline BMF values. *)
Definition du_az : T := np_sum (du_a [*] du_phi [*] z) / dot du_phi z.
Definition sq_az : T := np_sum (sq_a [*] sq_phi [*] z) / dot sq_phi z.
Definition th_az : T := np_sum (th_a [*] th_phi [*] z) / dot th_phi z.
Definition du_beta : T := of_int 1 - du_az.
Definition sq_beta : T := of_int 1 - sq_az.
Definition th_beta : T := of_int 1 - th_az.
Definition du_bmf : T := of_int 1 / (du_beta + du_gamma).
Definition sq_bmf : T := of_int 1 / (sq_beta + sq_gamma).
Definition th_bmf : T := of_int 1 / (th_beta + th_gamma).

(** Cell 10: the perturbed BMF values. *)
Definition du_a_new : array3 T := du_a [+] lam * delta_gpgp_plastic_conc.
Definition sq_a_new : array3 T := sq_a [+] lam * delta_gpgp_plastic_conc.
Definition th_a_new : array3 T := th_a [+] lam * delta_gpgp_plastic_conc.

Definition du_az_new : T := np_sum (du_a_new [*] du_phi [*] z) / dot du_phi z.
Definition sq_az_new : T := np_sum (sq_a_new [*] sq_phi [*] z) / dot sq_phi z.
Definition th_az_new : T := np_sum (th_a_new [*] th_phi [*] z) / dot th_phi z.
Definition du_beta_new : T := of_int 1 - du_az_new.
Definition sq_beta_new : T := of_int 1 - sq_az_new.
Definition th_beta_new : T := of_int 1 - th_az_new.
Definition du_bmf_new : T := of_int 1 / (du_beta_new + du_gamma).
Definition sq_bmf_new : T := of_int 1 / (sq_beta_new + sq_gamma).
Definition th_bmf_new : T := of_int 1 / (th_beta_new + th_gamma).

(** Cell 10: the heights of the three bars. *)
Definition du_percent_change : T := (du_bmf_new - du_bmf) / du_bmf * of_int 100.
Definition sq_percent_change : T := (sq_bmf_new - sq_bmf) / sq_bmf * of_int 100.
Definition th_percent_change : T := (th_bmf_new - th_bmf) / th_bmf * of_int 100.
End Cells.
End Notebook.

(** ** The same expressions as functions of the names they read

  The notebook has no function: it writes the BMF expression six times and
  the estimate once, over global names.  Here each expression is abstracted
  over the names it reads, the literals inside it left in place.
  [cells_are_model] shows that the cells are these functions at the
  notebook's bindings. *)

Module Model.
Section Estimator.
Context {T : Type} `{Number T}.
Local Open Scope num_scope.
Variables (num_students avg_boba_per_month : Z).
Variables (vol_plastic_per_straw gpgp_surf_area : T).

Definition plastic_waste_per_year : T :=
  of_int (num_students * avg_boba_per_month) * vol_plastic_per_straw * of_int 12.
Definition ocean_plastic_per_year : T := lit 0.03 * plastic_waste_per_year.
Definition gpgp_cur_plastic : T := lit 7.9e7 / lit 0.92.
Definition gpgp_cur_plastic_conc : T := gpgp_cur_plastic / gpgp_surf_area.
Definition gpgp_new_plastic : T :=
  gpgp_cur_plastic + lit 0.29 * ocean_plastic_per_year.
Definition gpgp_new_plastic_conc : T := gpgp_new_plastic / gpgp_surf_area.
Definition delta_gpgp_plastic_conc : T :=
  gpgp_new_plastic_conc - gpgp_cur_plastic_conc.
End Estimator.

Section Organism.
Context {T : Type} `{Number T}.
Local Open Scope num_scope.
Local Open Scope array_scope.
Variables (a phi z : array3 T) (gamma : T).

Definition az : T := np_sum (a [*] phi [*] z) / dot phi z.
Definition beta : T := of_int 1 - az.
Definition bmf : T := of_int 1 / (beta + gamma).
End Organism.

Section Chart.
Context {T : Type} `{Number T}.
Local Open Scope num_scope.
Definition percent_change (bmf_new bmf : T) : T :=
  (bmf_new - bmf) / bmf * of_int 100.
End Chart.
End Model.

(** ** Carrier 1: binary64 *)

(** An [int] converts to the nearest binary64 (ties to even).  Python
    refuses an [int] beyond the binary64 range; here it reads as an
    infinity.  The notebook converts 0, 1, 12, 100 and 215000. *)
Definition float_of_int (n : Z) : float :=
  SF2Prim (binary_normalize prec emax n 0 false).

(** [int(x)]: the integer part of a finite float; [nan] and the infinities
    raise. *)
Definition float_to_int (x : float) : option Z :=
  match Prim2SF x with
  | S754_zero _ => Some 0%Z
  | S754_finite s m e => Some (cond_Zopp s (Z.shiftl (Zpos m) e))
  | S754_infinity _ => None
  | S754_nan => None
  end.

#[export] Instance binary64 : Number float := {
  nadd := PrimFloat.add;
  nsub := PrimFloat.sub;
  nmul := PrimFloat.mul;
  ndiv := PrimFloat.div;
  of_int := float_of_int;
  to_int := float_to_int
}.

(** ** Carrier 2: exact rationals

    [None] stands for the result of a division by zero and for whatever is
    computed from it.  numpy gives [nan] or an infinity there and goes on,
    and an infinity may come back to a finite number (1/inf is 0): of a
    result that went through a division by zero the exact reading says only
    that it did. *)
Definition exact : Type := option Qc.

Definition Qc_of_int (n : Z) : Qc := Q2Qc (inject_Z n).

Definition Qc_is_zero (q : Qc) : bool := (Qnum q =? 0)%Z.

Definition exact_lift (f : Qc -> Qc -> Qc) (x y : exact) : exact :=
  match x, y with
  | Some p, Some q => Some (f p q)
  | _, _ => None
  end.

Definition exact_div (x y : exact) : exact :=
  match x, y with
  | Some p, Some q => if Qc_is_zero q then None else Some (p / q)%Qc
  | _, _ => None
  end.

Definition exact_to_int (x : exact) : option Z :=
  match x with
  | Some q => Some (Z.quot (Qnum q) (Zpos (Qden q)))
  | None => None
  end.

#[export] Instance exact_number : Number exact := {
  nadd := exact_lift Qcplus;
  nsub := exact_lift Qcminus;
  nmul := exact_lift Qcmult;
  ndiv := exact_div;
  of_int := fun n => Some (Qc_of_int n);
  to_int := exact_to_int
}.

(** An array of rationals, read as an array of the exact carrier. *)
Definition exact_array (x : array3 Qc) : array3 exact := array_map Some x.

(** An array of three decimal literals, as rationals. *)
Definition rational_array (q0 q1 q2 : Q) : array3 Qc :=
  np_array (Q2Qc q0) (Q2Qc q1) (Q2Qc q2).

(** Comparisons of exact results; an undefined result compares with
    nothing. *)
Definition exact_lt (x y : exact) : Prop :=
  match x, y with
  | Some p, Some q => (p < q)%Qc
  | _, _ => False
  end.

Definition exact_le (x y : exact) : Prop :=
  match x, y with
  | Some p, Some q => (p <= q)%Qc
  | _, _ => False
  end.

Definition exact_nonzero (x : exact) : Prop :=
  match x with
  | Some q => q <> Q2Qc 0
  | None => False
  end.

Definition exact_eqb (x y : exact) : bool :=
  match x, y with
  | Some p, Some q => Qeq_bool p q
  | None, None => true
  | _, _ => false
  end.

(** The same tests as functions, to decide them by evaluation. *)
Definition exact_ltb (x y : exact) : bool :=
  match x, y with
  | Some p, Some q => match (p ?= q)%Qc with Lt => true | _ => false end
  | _, _ => false
  end.

Definition exact_nonzerob (x : exact) : bool :=
  match x with
  | Some q => negb (Qc_is_zero q)
  | None => false
  end.

(** A function is monotonic when it preserves the order of its argument or
    reverses it. *)
Definition monotonic {A : Type} (le : A -> A -> Prop) (f : A -> exact) : Prop :=
  (forall x y, le x y -> exact_le (f x) (f y)) \/
  (forall x y, le x y -> exact_le (f y) (f x)).

(** A binary64 denominator that divides without producing [nan] or an
    infinity from a finite numerator of ordinary size: finite and not zero. *)
Definition float_nonzero (x : float) : bool :=
  PrimFloat.is_finite x && negb (PrimFloat.is_zero x).

(** ** The formulas in the words of the specification

    Section 4.2: weighted digestibility is the sum of digestibility times
    diet fraction times concentration, divided by the sum of diet fraction
    times concentration; the driving force is one minus it; the BMF is one
    over the driving force plus the counteracting force. *)
Module Spec.
Local Open Scope Qc_scope.

(** Entry [i] of a vector, [i] among 0, 1, 2. *)
Definition item (i : nat) (x : array3 Qc) : Qc :=
    match i with
    | O => item0 x
    | S O => item1 x
    | _ => item2 x
    end.

(** The sum over the three nutrients. *)
Definition sigma (f : nat -> Qc) : Qc :=
    List.fold_right (fun i acc => f i + acc) (Q2Qc 0) (0 :: 1 :: 2 :: nil)%nat.

(** The denominator: the sum of diet fraction times concentration. *)
Definition weight (phi z : array3 Qc) : Qc :=
    sigma (fun i => item i phi * item i z).

Definition weighted_digestibility (a phi z : array3 Qc) : Qc :=
    sigma (fun i => item i a * item i phi * item i z) / weight phi z.

Definition driving_force (a phi z : array3 Qc) : Qc :=
    1 - weighted_digestibility a phi z.

Definition BMF (a phi z : array3 Qc) (gamma : Qc) : Qc :=
    1 / (driving_force a phi z + gamma).
End Spec.

(** Section 8 on the concentration delta: patch fraction times ocean
    fraction times waste volume, divided by the area, divided by the
    density. *)
Definition spec_delta {T : Type} `{Number T}
  (patch_fraction ocean_fraction waste area density : T) : T :=
  (patch_fraction * ocean_fraction * waste / area / density)%num.

(** ** The perturbed computation, the chart and the report as functions

    The second half of cell 10 and the sentence of cell 8, abstracted over
    the names they read like the expressions of [Model].
    [cells_are_perturbed] shows that the cells are these functions at the
    notebook's bindings. *)

Module Perturbed.
Section Perturbed.
Context {T : Type} `{Number T}.
Local Open Scope num_scope.
Local Open Scope array_scope.
Variables (a phi z : array3 T) (gamma lam delta_gpgp_plastic_conc : T).

Definition a_new : array3 T := a [+] lam * delta_gpgp_plastic_conc.
Definition az_new : T := np_sum (a_new [*] phi [*] z) / dot phi z.
Definition beta_new : T := of_int 1 - az_new.
Definition bmf_new : T := of_int 1 / (beta_new + gamma).
Definition percent_change : T :=
  (bmf_new - Model.bmf a phi z gamma) / Model.bmf a phi z gamma * of_int 100.
End Perturbed.

Section Report.
Context {T : Type} `{Number T}.
Variables (num_students avg_boba_per_month : Z) (vol_plastic_per_straw : T).

Definition report : option Z * option Z :=
  (to_int (Model.plastic_waste_per_year num_students avg_boba_per_month
             vol_plastic_per_straw),
   to_int (Model.ocean_plastic_per_year num_students avg_boba_per_month
             vol_plastic_per_straw)).
End Report.
End Perturbed.

(** The squid's and the marine mysid's literals of cell 6 as rationals. *)
Module Literal.
Definition sq_gamma : Qc := Q2Qc 0.12.
Definition sq_a : array3 Qc := rational_array 0.95 0 0.85.
Definition sq_phi : array3 Qc := rational_array 0.66 0.05 0.14.
Definition th_a : array3 Qc := rational_array 0.85 0.62 0.96.
Definition th_phi : array3 Qc := rational_array 0.5 0 0.31.
Definition z : array3 Qc := rational_array 0.05 0.1 1.
End Literal.

(** The sum of the entries of a vector of rationals. *)
Definition total (x : array3 Qc) : Qc := (item0 x + item1 x + item2 x)%Qc.

(** Every entry of a vector of rationals satisfies [P]. *)
Definition entries (P : Qc -> Prop) (x : array3 Qc) : Prop :=
  P (item0 x) /\ P (item1 x) /\ P (item2 x).

(** The vector scaled by a rational. *)
Definition scaled (k : Qc) (x : array3 Qc) : array3 Qc :=
  array_map (fun q => k * q)%Qc x.

(** * Properties *)

(** ** The literals and the recorded run *)

(** Every decimal literal of the notebook, read through [lit] at binary64, is
    the float that the literal denotes. *)
Local Open Scope list_scope.

Lemma lit_binary64 :
  List.map (lit (T := float))
    (0.01 :: 0.96 :: 0.16 :: 0.61 :: 0.12 :: 0.95 :: 0.85 :: 0.66 :: 0.05 ::
     0.14 :: 0.62 :: 0.5 :: 0.31 :: 0.1 :: 1e5 :: 0.016 :: 0.03 :: 1.6e12 ::
     7.9e7 :: 0.92 :: 0.29 :: nil)%Q
  = (0.01 :: 0.96 :: 0.16 :: 0.61 :: 0.12 :: 0.95 :: 0.85 :: 0.66 :: 0.05 ::
     0.14 :: 0.62 :: 0.5 :: 0.31 :: 0.1 :: 1e5 :: 0.016 :: 0.03 :: 1.6e12 ::
     7.9e7 :: 0.92 :: 0.29 :: nil)%float.
Proof. vm_compute. reflexivity. Qed.

(** At binary64 the cells evaluate to the numbers the notebook printed:
    the five lines of cell 9 and the six BMF values of cell 10. *)
Lemma recorded_output :
  (Notebook.gpgp_cur_plastic (T := float) = 85869565.2173913%float /\
   Notebook.gpgp_new_plastic (T := float) = 85869924.3533913%float /\
   Notebook.gpgp_cur_plastic_conc (T := float) = 5.366847826086956e-05%float /\
   Notebook.gpgp_new_plastic_conc (T := float) = 5.366870272086957e-05%float /\
   Notebook.delta_gpgp_plastic_conc (T := float) = 2.2446000000488726e-10%float) /\
  (Notebook.du_bmf (T := float) = 19.99999999999994%float /\
   Notebook.sq_bmf (T := float) = 3.6319118547235254%float /\
   Notebook.th_bmf (T := float) = 5.944986690328299%float) /\
  (Notebook.du_bmf_new (T := float) = 20.008982432393672%float /\
   Notebook.sq_bmf_new (T := float) = 3.6322079591939183%float /\
   Notebook.th_bmf_new (T := float) = 5.945780102189156%float).
Proof. vm_compute. repeat split. Qed.

(** ** The exact carrier *)

Lemma Qc_is_zero_true (q : Qc) : Qc_is_zero q = true <-> q = Q2Qc 0.
Proof.
  unfold Qc_is_zero. rewrite Z.eqb_eq. split.
  - intros Hn. apply Qc_is_canon. unfold Qeq. rewrite Hn. reflexivity.
  - intros ->. reflexivity.
Qed.

Lemma Qc_is_zero_false (q : Qc) : q <> Q2Qc 0 -> Qc_is_zero q = false.
Proof.
  intros Hq. destruct (Qc_is_zero q) eqn:E; [|reflexivity].
  apply Qc_is_zero_true in E. contradiction.
Qed.

(** A division whose divisor is not zero has the quotient as its value. *)
Lemma exact_div_some (p q : Qc) :
  q <> Q2Qc 0 -> (Some p / Some q)%num = Some (p / q)%Qc.
Proof. intros Hq. simpl. rewrite (Qc_is_zero_false q Hq). reflexivity. Qed.

Lemma exact_div_zero (x : exact) : (x / Some (Q2Qc 0))%num = None.
Proof. destruct x; reflexivity. Qed.

Lemma exact_eqb_eq (x y : exact) : exact_eqb x y = true -> x = y.
Proof.
  destruct x as [p|], y as [q|]; simpl; try discriminate; [|reflexivity].
  intros E. f_equal. apply Qc_is_canon. apply Qeq_bool_iff. exact E.
Qed.

Lemma Qc_of_int_mul (m n : Z) :
  Qc_of_int (m * n) = (Qc_of_int m * Qc_of_int n)%Qc.
Proof.
  apply Qc_is_canon. unfold Qc_of_int, Qcmult. cbn [this Q2Qc].
  rewrite !Qred_correct. unfold Qeq, Qmult; simpl. ring.
Qed.

Lemma Qc_of_int_add (m n : Z) :
  Qc_of_int (m + n) = (Qc_of_int m + Qc_of_int n)%Qc.
Proof.
  apply Qc_is_canon. unfold Qc_of_int, Qcplus. cbn [this Q2Qc].
  rewrite !Qred_correct. unfold Qeq, Qplus; simpl. ring.
Qed.

Lemma Qc_of_int_le (m n : Z) : (m <= n)%Z -> (Qc_of_int m <= Qc_of_int n)%Qc.
Proof.
  intros Hmn. unfold Qcle, Qc_of_int. cbn [this Q2Qc]. rewrite !Qred_correct.
  unfold Qle; simpl. lia.
Qed.

(** At the exact carrier a literal is the rational it is written as. *)
Lemma lit_exact (q : Q) : lit (T := exact) q = Some (Q2Qc q).
Proof.
  unfold lit. set (r := Qred q). cbn [ndiv of_int exact_number].
  assert (Hd : Qc_of_int (Zpos (Qden r)) <> Q2Qc 0).
  { intros E. apply (f_equal this) in E. unfold Qc_of_int in E.
    cbn [this Q2Qc] in E.
    assert (Hz : inject_Z (Zpos (Qden r)) == 0).
    { rewrite <- (Qred_correct (inject_Z _)), E. apply Qred_correct. }
    unfold Qeq in Hz. simpl in Hz. discriminate Hz. }
  rewrite (exact_div_some _ _ Hd). f_equal.
  apply Qc_is_canon. unfold Qcdiv, Qcmult, Qcinv, Qc_of_int.
  cbn [this Q2Qc]. repeat rewrite Qred_correct.
  transitivity r; [|apply Qred_correct].
  destruct r as [n d]. symmetry. apply Qmake_Qdiv.
Qed.

(** Splits a conjunction into its conjuncts, and nothing else. *)
Ltac conjs := repeat match goal with |- _ /\ _ => split end.

(** Two exact results are equal as soon as their comparison computes to
    [true]. *)
Ltac exact_compute := apply exact_eqb_eq; vm_compute; reflexivity.

(** ** The cells are the model at the notebook's bindings *)

Lemma cells_are_model (T : Type) (N : Number T) :
  Notebook.plastic_waste_per_year =
    Model.plastic_waste_per_year Notebook.num_students
      Notebook.avg_boba_per_month Notebook.vol_plastic_per_straw /\
  Notebook.ocean_plastic_per_year =
    Model.ocean_plastic_per_year Notebook.num_students
      Notebook.avg_boba_per_month Notebook.vol_plastic_per_straw /\
  Notebook.delta_gpgp_plastic_conc =
    Model.delta_gpgp_plastic_conc Notebook.num_students
      Notebook.avg_boba_per_month Notebook.vol_plastic_per_straw
      Notebook.gpgp_surf_area /\
  Notebook.du_bmf =
    Model.bmf Notebook.du_a Notebook.du_phi Notebook.z Notebook.du_gamma /\
  Notebook.sq_bmf =
    Model.bmf Notebook.sq_a Notebook.sq_phi Notebook.z Notebook.sq_gamma /\
  Notebook.th_bmf =
    Model.bmf Notebook.th_a Notebook.th_phi Notebook.z Notebook.th_gamma.
Proof. repeat split. Qed.

(** ** Concrete scenarios *)

(** C4: with the dugong literals a = [0.96, 0.96, 0.96],
    phi = [0.16, 0.61, 0.01], z = [0.05, 0.1, 1] and gamma = 0.01, the
    baseline dugong BMF is 1/(1 - 0.96 + 0.01) = 20, exactly so over the
    rationals; at binary64 it is the recorded 19.99999999999994, which is
    within 1e-13 of 20. *)
Theorem dugong_baseline_bmf :
  Model.bmf (T := exact)
    (np_array (lit 0.96) (lit 0.96) (lit 0.96))
    (np_array (lit 0.16) (lit 0.61) (lit 0.01))
    (np_array (lit 0.05) (lit 0.1) (of_int 1)) (lit 0.01)
  = Notebook.du_bmf /\
  Notebook.du_bmf (T := exact) = Some (Q2Qc 20) /\
  (of_int 1 / (of_int 1 - lit 0.96 + lit 0.01))%num = Some (Q2Qc 20) /\
  Notebook.du_bmf (T := float) = 19.99999999999994%float /\
  PrimFloat.ltb
    (PrimFloat.abs (PrimFloat.sub (Notebook.du_bmf (T := float)) 20%float))
    1e-13%float = true.
Proof.
  split; [reflexivity|].
  split; [exact_compute|].
  split; [exact_compute|].
  split; vm_compute; reflexivity.
Qed.

(** C5: with 43000 students, 5 bobas a month, 0.016 L of plastic a straw
    and 3% of the waste reaching the ocean, the annual plastic waste is
    43000 * 5 * 0.016 * 12 = 41280 L and the ocean plastic is
    0.03 * 41280 = 1238.4 L; the printed sentence shows the integers 41280
    and 1238, over the rationals and at binary64 alike. *)
Theorem straw_waste_report :
  (Notebook.num_students = 43000%Z /\ Notebook.avg_boba_per_month = 5%Z /\
   Notebook.vol_plastic_per_straw (T := exact) = Some (Q2Qc 0.016)) /\
  Notebook.plastic_waste_per_year (T := exact) = Some (Q2Qc 41280) /\
  Some (Q2Qc 41280) = Some (Q2Qc 43000 * Q2Qc 5 * Q2Qc 0.016 * Q2Qc 12)%Qc /\
  Notebook.ocean_plastic_per_year (T := exact) = Some (Q2Qc 1238.4) /\
  Some (Q2Qc 1238.4) = Some (Q2Qc 0.03 * Q2Qc 41280)%Qc /\
  Notebook.report (T := exact) = (Some 41280%Z, Some 1238%Z) /\
  Notebook.plastic_waste_per_year (T := float) = 41280%float /\
  Notebook.report (T := float) = (Some 41280%Z, Some 1238%Z).
Proof.
  split; [conjs; try reflexivity; exact_compute|].
  split; [exact_compute|].
  split; [exact_compute|].
  split; [exact_compute|].
  split; [exact_compute|].
  conjs; vm_compute; reflexivity.
Qed.

(** ** The weighted digestibility over the rationals *)

(** A rational that is not zero, decided by evaluation. *)
Ltac Qc_neq :=
  let E := fresh "E" in
  intros E; apply (f_equal Qc_is_zero) in E; vm_compute in E; discriminate E.

Lemma dot_exact (phi z : array3 Qc) :
  dot (exact_array phi) (exact_array z) = Some (Spec.weight phi z).
Proof.
  destruct phi as [p0 p1 p2], z as [z0 z1 z2].
  unfold dot, Spec.weight, Spec.sigma; cbn.
  change (Qc_of_int 0) with (Q2Qc 0). f_equal. ring.
Qed.

Lemma np_sum_exact (a phi z : array3 Qc) :
  np_sum (exact_array a [*] exact_array phi [*] exact_array z)%array
  = Some (Spec.sigma (fun i => Spec.item i a * Spec.item i phi * Spec.item i z)%Qc).
Proof.
  destruct a as [a0 a1 a2], phi as [p0 p1 p2], z as [z0 z1 z2].
  unfold np_sum, Spec.sigma; cbn.
  change (Qc_of_int 0) with (Q2Qc 0). f_equal. ring.
Qed.

Lemma az_exact (a phi z : array3 Qc) :
  Spec.weight phi z <> Q2Qc 0 ->
  Model.az (exact_array a) (exact_array phi) (exact_array z)
  = Some (Spec.weighted_digestibility a phi z).
Proof.
  intros Hw. unfold Model.az. rewrite np_sum_exact, dot_exact.
  apply exact_div_some. exact Hw.
Qed.

(** Without weight the weighted digestibility has no value. *)
Lemma az_exact_zero (a phi z : array3 Qc) :
  Spec.weight phi z = Q2Qc 0 ->
  Model.az (exact_array a) (exact_array phi) (exact_array z) = None.
Proof.
  intros Hw. unfold Model.az. rewrite dot_exact, Hw. apply exact_div_zero.
Qed.

Lemma shift_exact (a : array3 Qc) (c : Qc) :
  (exact_array a [+] Some c)%array
  = exact_array (np_array (item0 a + c) (item1 a + c) (item2 a + c))%Qc.
Proof. destruct a; reflexivity. Qed.

(** The uniform shift passes through the weighted average. *)
Lemma weighted_digestibility_shift (a phi z : array3 Qc) (c : Qc) :
  Spec.weight phi z <> Q2Qc 0 ->
  Spec.weighted_digestibility
    (np_array (item0 a + c) (item1 a + c) (item2 a + c))%Qc phi z
  = (Spec.weighted_digestibility a phi z + c)%Qc.
Proof.
  destruct a as [a0 a1 a2], phi as [p0 p1 p2], z as [z0 z1 z2].
  unfold Spec.weighted_digestibility, Spec.weight, Spec.sigma; cbn.
  intros Hw. field. intros E. apply Hw.
  transitivity (p0 * z0 + (p1 * z1 + p2 * z2))%Qc; [ring|exact E].
Qed.

(** C1: for every parameter set whose weight sum_i phi_i*z_i is not zero,
    the code's expression for the weighted digestibility has the value
    (sum_i a_i*phi_i*z_i) / (sum_i phi_i*z_i), its driving force the value
    1 - alpha_Z, and its BMF the value 1 / (beta + gamma), undefined exactly
    when beta + gamma is zero; the cells of the dugong, the squid and the
    marine mysid evaluate this formula at their literals. *)
Theorem bmf_refines_spec (a phi z : array3 Qc) (gamma : Qc) :
  Spec.weight phi z <> Q2Qc 0 ->
  (Model.az (exact_array a) (exact_array phi) (exact_array z)
   = Some (Spec.weighted_digestibility a phi z) /\
   Model.beta (exact_array a) (exact_array phi) (exact_array z)
   = Some (Spec.driving_force a phi z) /\
   Model.bmf (exact_array a) (exact_array phi) (exact_array z) (Some gamma)
   = if Qc_is_zero (Spec.driving_force a phi z + gamma)
     then None else Some (Spec.BMF a phi z gamma)) /\
  (Notebook.du_az = Some (Spec.weighted_digestibility
     (rational_array 0.96 0.96 0.96) (rational_array 0.16 0.61 0.01)
     (rational_array 0.05 0.1 1)) /\
   Notebook.du_bmf = Some (Spec.BMF
     (rational_array 0.96 0.96 0.96) (rational_array 0.16 0.61 0.01)
     (rational_array 0.05 0.1 1) (Q2Qc 0.01))) /\
  (Notebook.sq_az = Some (Spec.weighted_digestibility
     (rational_array 0.95 0 0.85) (rational_array 0.66 0.05 0.14)
     (rational_array 0.05 0.1 1)) /\
   Notebook.sq_bmf = Some (Spec.BMF
     (rational_array 0.95 0 0.85) (rational_array 0.66 0.05 0.14)
     (rational_array 0.05 0.1 1) (Q2Qc 0.12))) /\
  (Notebook.th_az = Some (Spec.weighted_digestibility
     (rational_array 0.85 0.62 0.96) (rational_array 0.5 0 0.31)
     (rational_array 0.05 0.1 1)) /\
   Notebook.th_bmf = Some (Spec.BMF
     (rational_array 0.85 0.62 0.96) (rational_array 0.5 0 0.31)
     (rational_array 0.05 0.1 1) (Q2Qc 0.12))).
Proof.
  intros Hw. split.
  - assert (Haz := az_exact a phi z Hw).
    split; [exact Haz|].
    unfold Model.bmf, Model.beta. rewrite Haz. split; [reflexivity|].
    unfold Spec.BMF, Spec.driving_force. cbn.
    change (Qc_of_int 1) with (Q2Qc 1).
    destruct (Qc_is_zero _); reflexivity.
  - conjs; exact_compute.
Qed.

Lemma bmf_refines_spec_witness :
  Spec.weight (rational_array 0.5 0 0.31) (rational_array 0.05 0.1 1) <> Q2Qc 0 /\
  Model.bmf (exact_array (rational_array 0.85 0.62 0.96))
    (exact_array (rational_array 0.5 0 0.31))
    (exact_array (rational_array 0.05 0.1 1)) (Some (Q2Qc 0.12))
  = if Qc_is_zero
         (Spec.driving_force (rational_array 0.85 0.62 0.96)
            (rational_array 0.5 0 0.31) (rational_array 0.05 0.1 1) + Q2Qc 0.12)
    then None
    else Some (Spec.BMF (rational_array 0.85 0.62 0.96)
                 (rational_array 0.5 0 0.31) (rational_array 0.05 0.1 1)
                 (Q2Qc 0.12)).
Proof.
  split; [Qc_neq|].
  apply (bmf_refines_spec (rational_array 0.85 0.62 0.96)
           (rational_array 0.5 0 0.31) (rational_array 0.05 0.1 1) (Q2Qc 0.12)).
  Qc_neq.
Defined.

(** Perfect digestion over a diet without weight: the diet fractions of the
    marine mysid with concentrations that vanish wherever the diet does not.
    The weighted digestibility is 0/0: no value over the rationals, [nan] at
    binary64. *)
Lemma perfect_digestion_without_weight :
  Model.az (T := exact) (np_array (of_int 1) (of_int 1) (of_int 1))
    (np_array (lit 0.5) (of_int 0) (lit 0.31))
    (np_array (of_int 0) (lit 0.1) (of_int 0)) = None /\
  Model.az (T := exact) (np_array (of_int 1) (of_int 1) (of_int 1))
    (np_array (lit 0.5) (of_int 0) (lit 0.31))
    (np_array (of_int 0) (lit 0.1) (of_int 0)) <> Some (Q2Qc 1) /\
  PrimFloat.is_nan
    (Model.az (T := float) (np_array (of_int 1) (of_int 1) (of_int 1))
       (np_array (lit 0.5) (of_int 0) (lit 0.31))
       (np_array (of_int 0) (lit 0.1) (of_int 0))) = true.
Proof.
  assert (E : Model.az (T := exact) (np_array (of_int 1) (of_int 1) (of_int 1))
                (np_array (lit 0.5) (of_int 0) (lit 0.31))
                (np_array (of_int 0) (lit 0.1) (of_int 0)) = None)
    by exact_compute.
  split; [exact E|]. split; [rewrite E; discriminate|].
  vm_compute. reflexivity.
Qed.

(** C3, amended: for every diet-fraction vector phi and concentration vector
    z whose weight sum_i phi_i*z_i is not zero, a digestibility vector that
    is 1 in every component gives the weighted digestibility exactly 1. *)
Theorem perfect_digestion (phi z : array3 Qc) :
  Spec.weight phi z <> Q2Qc 0 ->
  Model.az (np_array (of_int 1) (of_int 1) (of_int 1))
    (exact_array phi) (exact_array z) = Some (Q2Qc 1).
Proof.
  intros Hw.
  change (np_array (of_int 1) (of_int 1) (of_int 1))
    with (exact_array (np_array (Q2Qc 1) (Q2Qc 1) (Q2Qc 1))).
  rewrite (az_exact _ phi z Hw). f_equal.
  destruct phi as [p0 p1 p2], z as [z0 z1 z2].
  unfold Spec.weighted_digestibility, Spec.weight, Spec.sigma in *.
  cbn in *. field. intros E. apply Hw.
  transitivity (p0 * z0 + (p1 * z1 + p2 * z2))%Qc; [ring|exact E].
Qed.

Lemma perfect_digestion_witness :
  Spec.weight (rational_array 0.16 0.61 0.01) (rational_array 0.05 0.1 1)
    <> Q2Qc 0 /\
  Model.az (np_array (of_int 1) (of_int 1) (of_int 1))
    (exact_array (rational_array 0.16 0.61 0.01))
    (exact_array (rational_array 0.05 0.1 1)) = Some (Q2Qc 1).
Proof.
  split; [Qc_neq|].
  apply (perfect_digestion (rational_array 0.16 0.61 0.01)
           (rational_array 0.05 0.1 1)).
  Qc_neq.
Defined.

(** At binary64 the shift does not pass through exactly: for each of the
    three organisms the perturbed driving force that the notebook computes
    differs, in the last digits, from the baseline one less
    lam * delta_gpgp_plastic_conc computed in the same arithmetic. *)
Lemma shift_inexact_at_binary64 :
  (Notebook.du_beta_new (T := float) = 0.039977553999999693%float /\
   PrimFloat.sub Notebook.du_beta
     (PrimFloat.mul Notebook.lam Notebook.delta_gpgp_plastic_conc)
   = 0.039977553999999658%float /\
   Notebook.du_beta_new (T := float)
   <> (Notebook.du_beta - Notebook.lam * Notebook.delta_gpgp_plastic_conc)%num) /\
  (Notebook.sq_beta_new (T := float) = 0.15531463265168499%float /\
   PrimFloat.sub Notebook.sq_beta
     (PrimFloat.mul Notebook.lam Notebook.delta_gpgp_plastic_conc)
   = 0.15531463265168496%float /\
   Notebook.sq_beta_new (T := float)
   <> (Notebook.sq_beta - Notebook.lam * Notebook.delta_gpgp_plastic_conc)%num) /\
  (Notebook.th_beta_new (T := float) = 0.048186509223880236%float /\
   PrimFloat.sub Notebook.th_beta
     (PrimFloat.mul Notebook.lam Notebook.delta_gpgp_plastic_conc)
   = 0.048186509223880312%float /\
   Notebook.th_beta_new (T := float)
   <> (Notebook.th_beta - Notebook.lam * Notebook.delta_gpgp_plastic_conc)%num).
Proof.
  conjs;
    try (vm_compute; reflexivity);
    intros E;
    match type of E with
    | _ = ?y => apply (f_equal (fun x : float => PrimFloat.eqb x y)) in E
    end;
    vm_compute in E; discriminate E.
Qed.

(** C9, amended: over the rationals, for every digestibility vector a,
    weights phi and z with sum_i phi_i*z_i not zero, and every scalar c, the
    weighted digestibility of a + c is that of a plus c, and the driving
    force that of a minus c; in the notebook, read over the rationals, the
    perturbed driving force of each of the three organisms is the baseline
    one minus lam * delta_gpgp_plastic_conc. *)
Theorem uniform_shift (a phi z : array3 Qc) (c : Qc) :
  Spec.weight phi z <> Q2Qc 0 ->
  (Model.az (exact_array a [+] Some c)%array (exact_array phi) (exact_array z)
   = (Model.az (exact_array a) (exact_array phi) (exact_array z) + Some c)%num /\
   Model.beta (exact_array a [+] Some c)%array (exact_array phi) (exact_array z)
   = (Model.beta (exact_array a) (exact_array phi) (exact_array z) - Some c)%num) /\
  (Notebook.du_beta_new (T := exact)
   = (Notebook.du_beta - Notebook.lam * Notebook.delta_gpgp_plastic_conc)%num /\
   Notebook.sq_beta_new (T := exact)
   = (Notebook.sq_beta - Notebook.lam * Notebook.delta_gpgp_plastic_conc)%num /\
   Notebook.th_beta_new (T := exact)
   = (Notebook.th_beta - Notebook.lam * Notebook.delta_gpgp_plastic_conc)%num).
Proof.
  intros Hw. split.
  - unfold Model.beta. rewrite shift_exact, !(az_exact _ phi z Hw).
    rewrite (weighted_digestibility_shift a phi z c Hw). cbn.
    split; [reflexivity|]. f_equal. ring.
  - conjs; exact_compute.
Qed.

Lemma uniform_shift_witness :
  Spec.weight (rational_array 0.66 0.05 0.14) (rational_array 0.05 0.1 1)
    <> Q2Qc 0 /\
  Model.az (exact_array (rational_array 0.95 0 0.85) [+] Some (Q2Qc 0.02))%array
    (exact_array (rational_array 0.66 0.05 0.14))
    (exact_array (rational_array 0.05 0.1 1))
  = (Model.az (exact_array (rational_array 0.95 0 0.85))
       (exact_array (rational_array 0.66 0.05 0.14))
       (exact_array (rational_array 0.05 0.1 1)) + Some (Q2Qc 0.02))%num.
Proof.
  split; [Qc_neq|].
  apply (uniform_shift (rational_array 0.95 0 0.85)
           (rational_array 0.66 0.05 0.14) (rational_array 0.05 0.1 1)
           (Q2Qc 0.02)).
  Qc_neq.
Defined.

(** ** The waste-and-concentration estimate over the rationals *)

Lemma waste_exact (n r : Z) (v : Qc) :
  Model.plastic_waste_per_year n r (Some v)
  = Some (Qc_of_int n * Qc_of_int r * v * Q2Qc 12)%Qc.
Proof.
  unfold Model.plastic_waste_per_year. cbn.
  rewrite Qc_of_int_mul. reflexivity.
Qed.

(** At the notebook's bindings the concentration delta is 2.2446e-10, while
    the quotient of 0.29 * 0.03 * waste by the area and then by the density
    0.92 is 2.2446e-10 / 0.92: the two differ, over the rationals and, by
    more than 1.9e-11, at binary64. *)
Lemma delta_is_not_divided_by_density :
  Notebook.delta_gpgp_plastic_conc (T := exact) = Some (Q2Qc 2.2446e-10) /\
  spec_delta (T := exact) (lit 0.29) (lit 0.03)
    Notebook.plastic_waste_per_year Notebook.gpgp_surf_area (lit 0.92)
  = Some (Q2Qc (2.2446e-10 / 0.92)) /\
  Notebook.delta_gpgp_plastic_conc (T := exact)
  <> spec_delta (T := exact) (lit 0.29) (lit 0.03)
       Notebook.plastic_waste_per_year Notebook.gpgp_surf_area (lit 0.92) /\
  Notebook.delta_gpgp_plastic_conc (T := float)
  = 2.2446000000488726e-10%float /\
  PrimFloat.ltb 1.9e-11%float
    (PrimFloat.sub
       (spec_delta (T := float) (lit 0.29) (lit 0.03)
          Notebook.plastic_waste_per_year Notebook.gpgp_surf_area (lit 0.92))
       (Notebook.delta_gpgp_plastic_conc (T := float))) = true.
Proof.
  assert (E1 : Notebook.delta_gpgp_plastic_conc (T := exact)
               = Some (Q2Qc 2.2446e-10)) by exact_compute.
  assert (E2 : spec_delta (T := exact) (lit 0.29) (lit 0.03)
                 Notebook.plastic_waste_per_year Notebook.gpgp_surf_area
                 (lit 0.92)
               = Some (Q2Qc (2.2446e-10 / 0.92))) by exact_compute.
  split; [exact E1|]. split; [exact E2|]. split.
  - rewrite E1, E2. intros E.
    apply (f_equal (exact_eqb (Some (Q2Qc 2.2446e-10)))) in E.
    vm_compute in E. discriminate E.
  - split; vm_compute; reflexivity.
Qed.

(** C2, amended: for every population, rate, container volume and every
    area that is not zero, the concentration delta is
    (0.29 * 0.03 * plastic_waste_per_year) / gpgp_surf_area: the density 0.92
    divides the baseline mass only, and cancels in the difference. *)
Theorem concentration_delta (n r : Z) (v area : Qc) :
  area <> Q2Qc 0 ->
  Model.delta_gpgp_plastic_conc n r (Some v) (Some area)
  = (lit 0.29 * lit 0.03 * Model.plastic_waste_per_year n r (Some v)
     / Some area)%num.
Proof.
  intros Ha.
  unfold Model.delta_gpgp_plastic_conc, Model.gpgp_new_plastic_conc,
    Model.gpgp_cur_plastic_conc, Model.gpgp_new_plastic,
    Model.gpgp_cur_plastic, Model.ocean_plastic_per_year.
  rewrite waste_exact, !lit_exact.
  assert (Hd : Q2Qc 0.92 <> Q2Qc 0) by Qc_neq.
  rewrite (exact_div_some (Q2Qc 7.9e7) (Q2Qc 0.92) Hd).
  cbn [nadd nsub nmul exact_number exact_lift].
  rewrite !(exact_div_some _ area Ha).
  cbn [exact_lift]. f_equal. field. split; assumption.
Qed.

(** At binary64 the two sides of the identity are rounded differently, the
    difference of two concentrations near 5.4e-05 losing digits: on the
    notebook's inputs they agree to within 1e-20, one unit in the last place
    of those concentrations, where the delta is 2.2e-10. *)
Lemma concentration_delta_binary64 :
  PrimFloat.ltb
    (PrimFloat.abs
       (PrimFloat.sub
          (Notebook.delta_gpgp_plastic_conc (T := float))
          (lit 0.29 * lit 0.03 * Notebook.plastic_waste_per_year
           / Notebook.gpgp_surf_area)%num))
    1e-20%float = true.
Proof. vm_compute. reflexivity. Qed.

Lemma concentration_delta_witness :
  Q2Qc 1.6e12 <> Q2Qc 0 /\
  Model.delta_gpgp_plastic_conc 43000 5 (Some (Q2Qc 0.016)) (Some (Q2Qc 1.6e12))
  = (lit 0.29 * lit 0.03
     * Model.plastic_waste_per_year 43000 5 (Some (Q2Qc 0.016))
     / Some (Q2Qc 1.6e12))%num.
Proof.
  split; [Qc_neq|].
  apply (concentration_delta 43000 5 (Q2Qc 0.016) (Q2Qc 1.6e12)).
  Qc_neq.
Defined.

(** Multiplication by a fixed rational preserves the order or reverses it,
    by the sign of the factor. *)
Lemma scale_monotonic (c : Qc) :
  (forall x y : Qc, x <= y -> x * c <= y * c)%Qc \/
  (forall x y : Qc, x <= y -> y * c <= x * c)%Qc.
Proof.
  destruct (Qclt_le_dec c (Q2Qc 0)) as [Hneg|Hpos].
  - right. intros x y Hxy.
    assert (Hc : (Q2Qc 0 <= - c)%Qc).
    { apply Qclt_le_weak in Hneg. apply Qcopp_le_compat in Hneg.
      exact Hneg. }
    assert (H := Qcmult_le_compat_r x y (- c)%Qc Hxy Hc).
    apply Qcopp_le_compat in H.
    replace (y * c)%Qc with (- (y * - c))%Qc by ring.
    replace (x * c)%Qc with (- (x * - c))%Qc by ring.
    exact H.
  - left. intros x y Hxy. apply Qcmult_le_compat_r; assumption.
Qed.

(** A function that scales an order-preserving reading of its argument by a
    fixed rational is monotonic. *)
Lemma scaled_monotonic {A : Type} (le : A -> A -> Prop) (inj : A -> Qc)
    (c : Qc) (f : A -> exact) :
  (forall x y, le x y -> (inj x <= inj y)%Qc) ->
  (forall x, f x = Some (inj x * c)%Qc) ->
  monotonic le f.
Proof.
  intros Hinj Hf. unfold monotonic.
  destruct (scale_monotonic c) as [H|H]; [left|right];
    intros x y Hxy; rewrite !Hf; cbn; apply H, Hinj, Hxy.
Qed.

(** C8: the annual plastic-waste volume is linear in each of its three
    inputs separately: for every assignment of the other two, doubling the
    population, the rate or the container volume doubles the output, and so
    does any integer multiple and any sum; hence it is monotonic in each
    input. *)
Theorem waste_linear (n r : Z) (v : Qc) :
  (Model.plastic_waste_per_year (2 * n) r (Some v)
   = (of_int 2 * Model.plastic_waste_per_year n r (Some v))%num /\
   Model.plastic_waste_per_year n (2 * r) (Some v)
   = (of_int 2 * Model.plastic_waste_per_year n r (Some v))%num /\
   Model.plastic_waste_per_year n r (Some (Q2Qc 2 * v)%Qc)
   = (of_int 2 * Model.plastic_waste_per_year n r (Some v))%num) /\
  (forall k : Z,
     Model.plastic_waste_per_year (k * n) r (Some v)
     = (of_int k * Model.plastic_waste_per_year n r (Some v))%num /\
     Model.plastic_waste_per_year n (k * r) (Some v)
     = (of_int k * Model.plastic_waste_per_year n r (Some v))%num /\
     Model.plastic_waste_per_year n r (Some (Qc_of_int k * v)%Qc)
     = (of_int k * Model.plastic_waste_per_year n r (Some v))%num) /\
  (forall (n' r' : Z) (v' : Qc),
     Model.plastic_waste_per_year (n + n') r (Some v)
     = (Model.plastic_waste_per_year n r (Some v)
        + Model.plastic_waste_per_year n' r (Some v))%num /\
     Model.plastic_waste_per_year n (r + r') (Some v)
     = (Model.plastic_waste_per_year n r (Some v)
        + Model.plastic_waste_per_year n r' (Some v))%num /\
     Model.plastic_waste_per_year n r (Some (v + v')%Qc)
     = (Model.plastic_waste_per_year n r (Some v)
        + Model.plastic_waste_per_year n r (Some v'))%num) /\
  (monotonic Z.le (fun m => Model.plastic_waste_per_year m r (Some v)) /\
   monotonic Z.le (fun m => Model.plastic_waste_per_year n m (Some v)) /\
   monotonic Qcle (fun w => Model.plastic_waste_per_year n r (Some w))).
Proof.
  assert (Hk : forall k : Z,
     Model.plastic_waste_per_year (k * n) r (Some v)
     = (of_int k * Model.plastic_waste_per_year n r (Some v))%num /\
     Model.plastic_waste_per_year n (k * r) (Some v)
     = (of_int k * Model.plastic_waste_per_year n r (Some v))%num /\
     Model.plastic_waste_per_year n r (Some (Qc_of_int k * v)%Qc)
     = (of_int k * Model.plastic_waste_per_year n r (Some v))%num).
  { intros k. rewrite !waste_exact, !Qc_of_int_mul. cbn.
    repeat split; f_equal; ring. }
  split; [exact (Hk 2%Z)|]. split; [exact Hk|]. split.
  - intros n' r' v'. rewrite !waste_exact, !Qc_of_int_add. cbn.
    repeat split; f_equal; ring.
  - repeat split.
    + apply (scaled_monotonic Z.le Qc_of_int (Qc_of_int r * v * Q2Qc 12)%Qc).
      * exact Qc_of_int_le.
      * intros m. rewrite waste_exact. f_equal. ring.
    + apply (scaled_monotonic Z.le Qc_of_int (Qc_of_int n * v * Q2Qc 12)%Qc).
      * exact Qc_of_int_le.
      * intros m. rewrite waste_exact. f_equal. ring.
    + apply (scaled_monotonic Qcle (fun w => w)
               (Qc_of_int n * Qc_of_int r * Q2Qc 12)%Qc).
      * intros x y Hxy. exact Hxy.
      * intros w. rewrite waste_exact. f_equal. ring.
Qed.

(** ** The notebook's data *)

Lemma exact_ltb_lt (x y : exact) : exact_ltb x y = true -> exact_lt x y.
Proof.
  destruct x as [p|], y as [q|]; simpl; try discriminate.
  destruct (p ?= q)%Qc eqn:E; try discriminate.
  intros _. apply Qclt_alt. exact E.
Qed.

Lemma exact_nonzerob_nonzero (x : exact) :
  exact_nonzerob x = true -> exact_nonzero x.
Proof.
  destruct x as [q|]; simpl; [|discriminate].
  intros Hq E. apply Qc_is_zero_true in E. rewrite E in Hq. discriminate Hq.
Qed.

(** A denominator that is not zero divides every defined numerator. *)
Lemma exact_nonzero_div (x y : exact) :
  x <> None -> exact_nonzero y -> (x / y)%num <> None.
Proof.
  destruct x as [p|], y as [q|]; simpl; try contradiction.
  intros _ Hq. rewrite (Qc_is_zero_false q Hq). discriminate.
Qed.

Ltac exact_lt_compute := apply exact_ltb_lt; vm_compute; reflexivity.
Ltac exact_nonzero_compute :=
  apply exact_nonzerob_nonzero; vm_compute; reflexivity.

(** C6: for each of the three organisms the denominator sum_i phi_i*z_i of
    the weighted digestibility is not zero, nor are the BMF denominators
    beta + gamma of the baseline and of the perturbed computation, nor the
    baseline BMF values that divide the percent changes: no division of cell
    10 is a division by zero, over the rationals and at binary64. *)
Theorem denominators_nonzero :
  (exact_nonzero (dot Notebook.du_phi Notebook.z) /\
   exact_nonzero (dot Notebook.sq_phi Notebook.z) /\
   exact_nonzero (dot Notebook.th_phi Notebook.z)) /\
  (exact_nonzero (Notebook.du_beta + Notebook.du_gamma)%num /\
   exact_nonzero (Notebook.sq_beta + Notebook.sq_gamma)%num /\
   exact_nonzero (Notebook.th_beta + Notebook.th_gamma)%num) /\
  (exact_nonzero (Notebook.du_beta_new + Notebook.du_gamma)%num /\
   exact_nonzero (Notebook.sq_beta_new + Notebook.sq_gamma)%num /\
   exact_nonzero (Notebook.th_beta_new + Notebook.th_gamma)%num) /\
  (exact_nonzero Notebook.du_bmf /\ exact_nonzero Notebook.sq_bmf /\
   exact_nonzero Notebook.th_bmf) /\
  List.Forall (fun x : exact => x <> None)
    (Notebook.du_bmf :: Notebook.sq_bmf :: Notebook.th_bmf ::
     Notebook.du_bmf_new :: Notebook.sq_bmf_new :: Notebook.th_bmf_new ::
     Notebook.du_percent_change :: Notebook.sq_percent_change ::
     Notebook.th_percent_change :: nil) /\
  List.forallb float_nonzero
    (dot Notebook.du_phi Notebook.z :: dot Notebook.sq_phi Notebook.z ::
     dot Notebook.th_phi Notebook.z ::
     (Notebook.du_beta + Notebook.du_gamma)%num ::
     (Notebook.sq_beta + Notebook.sq_gamma)%num ::
     (Notebook.th_beta + Notebook.th_gamma)%num ::
     (Notebook.du_beta_new + Notebook.du_gamma)%num ::
     (Notebook.sq_beta_new + Notebook.sq_gamma)%num ::
     (Notebook.th_beta_new + Notebook.th_gamma)%num ::
     Notebook.du_bmf :: Notebook.sq_bmf :: Notebook.th_bmf :: nil) = true.
Proof.
  split; [conjs; exact_nonzero_compute|].
  split; [conjs; exact_nonzero_compute|].
  split; [conjs; exact_nonzero_compute|].
  split; [conjs; exact_nonzero_compute|].
  split.
  - repeat (apply List.Forall_cons; [intros E;
      apply (f_equal (exact_eqb None)) in E; vm_compute in E; discriminate E|]).
    apply List.Forall_nil.
  - vm_compute. reflexivity.
Qed.

(** C7: the perturbed variant adds the one scalar
    lam * delta_gpgp_plastic_conc to every entry of each organism's
    digestibility vector, leaves phi, z and gamma as they are, and computes
    alpha_Z, beta and the BMF by the expressions of the baseline; this holds
    at every carrier of the arithmetic. *)
Theorem perturbed_variant (T : Type) (N : Number T) :
  (Notebook.du_a_new
   = array_map (fun x => x + Notebook.lam * Notebook.delta_gpgp_plastic_conc)%num
       Notebook.du_a /\
   Notebook.sq_a_new
   = array_map (fun x => x + Notebook.lam * Notebook.delta_gpgp_plastic_conc)%num
       Notebook.sq_a /\
   Notebook.th_a_new
   = array_map (fun x => x + Notebook.lam * Notebook.delta_gpgp_plastic_conc)%num
       Notebook.th_a) /\
  (Notebook.du_az = Model.az Notebook.du_a Notebook.du_phi Notebook.z /\
   Notebook.du_az_new = Model.az Notebook.du_a_new Notebook.du_phi Notebook.z /\
   Notebook.du_beta = Model.beta Notebook.du_a Notebook.du_phi Notebook.z /\
   Notebook.du_beta_new
   = Model.beta Notebook.du_a_new Notebook.du_phi Notebook.z /\
   Notebook.du_bmf
   = Model.bmf Notebook.du_a Notebook.du_phi Notebook.z Notebook.du_gamma /\
   Notebook.du_bmf_new
   = Model.bmf Notebook.du_a_new Notebook.du_phi Notebook.z Notebook.du_gamma) /\
  (Notebook.sq_az = Model.az Notebook.sq_a Notebook.sq_phi Notebook.z /\
   Notebook.sq_az_new = Model.az Notebook.sq_a_new Notebook.sq_phi Notebook.z /\
   Notebook.sq_beta = Model.beta Notebook.sq_a Notebook.sq_phi Notebook.z /\
   Notebook.sq_beta_new
   = Model.beta Notebook.sq_a_new Notebook.sq_phi Notebook.z /\
   Notebook.sq_bmf
   = Model.bmf Notebook.sq_a Notebook.sq_phi Notebook.z Notebook.sq_gamma /\
   Notebook.sq_bmf_new
   = Model.bmf Notebook.sq_a_new Notebook.sq_phi Notebook.z Notebook.sq_gamma) /\
  (Notebook.th_az = Model.az Notebook.th_a Notebook.th_phi Notebook.z /\
   Notebook.th_az_new = Model.az Notebook.th_a_new Notebook.th_phi Notebook.z /\
   Notebook.th_beta = Model.beta Notebook.th_a Notebook.th_phi Notebook.z /\
   Notebook.th_beta_new
   = Model.beta Notebook.th_a_new Notebook.th_phi Notebook.z /\
   Notebook.th_bmf
   = Model.bmf Notebook.th_a Notebook.th_phi Notebook.z Notebook.th_gamma /\
   Notebook.th_bmf_new
   = Model.bmf Notebook.th_a_new Notebook.th_phi Notebook.z Notebook.th_gamma).
Proof. conjs; reflexivity. Qed.

(** C10: with the notebook's literals, lam = 1e5 and a concentration delta
    above zero, the perturbed BMF is strictly above the baseline BMF for
    each of the three organisms, and each percent change given to the bar
    chart is strictly positive, over the rationals and at binary64. *)
Theorem perturbation_raises_bmf :
  (Notebook.lam (T := exact) = Some (Q2Qc 1e5) /\
   exact_lt (of_int 0) Notebook.delta_gpgp_plastic_conc) /\
  (exact_lt Notebook.du_bmf Notebook.du_bmf_new /\
   exact_lt Notebook.sq_bmf Notebook.sq_bmf_new /\
   exact_lt Notebook.th_bmf Notebook.th_bmf_new) /\
  (exact_lt (of_int 0) Notebook.du_percent_change /\
   exact_lt (of_int 0) Notebook.sq_percent_change /\
   exact_lt (of_int 0) Notebook.th_percent_change) /\
  (Notebook.lam (T := float) = 1e5%float /\
   PrimFloat.ltb 0 (Notebook.delta_gpgp_plastic_conc (T := float)) = true) /\
  (PrimFloat.ltb Notebook.du_bmf Notebook.du_bmf_new = true /\
   PrimFloat.ltb Notebook.sq_bmf Notebook.sq_bmf_new = true /\
   PrimFloat.ltb Notebook.th_bmf Notebook.th_bmf_new = true) /\
  (PrimFloat.ltb 0 Notebook.du_percent_change = true /\
   PrimFloat.ltb 0 Notebook.sq_percent_change = true /\
   PrimFloat.ltb 0 Notebook.th_percent_change = true).
Proof.
  split; [split; [exact_compute|exact_lt_compute]|].
  split; [conjs; exact_lt_compute|].
  split; [conjs; exact_lt_compute|].
  conjs; vm_compute; reflexivity.
Qed.

(** * Further properties of the cells *)

(** The cells of the perturbed computation are the functions of
    [Perturbed] at the notebook's bindings. *)
Lemma cells_are_perturbed (T : Type) (N : Number T) :
  (Notebook.du_bmf_new
   = Perturbed.bmf_new Notebook.du_a Notebook.du_phi Notebook.z
       Notebook.du_gamma Notebook.lam Notebook.delta_gpgp_plastic_conc /\
   Notebook.sq_bmf_new
   = Perturbed.bmf_new Notebook.sq_a Notebook.sq_phi Notebook.z
       Notebook.sq_gamma Notebook.lam Notebook.delta_gpgp_plastic_conc /\
   Notebook.th_bmf_new
   = Perturbed.bmf_new Notebook.th_a Notebook.th_phi Notebook.z
       Notebook.th_gamma Notebook.lam Notebook.delta_gpgp_plastic_conc) /\
  (Notebook.du_percent_change
   = Perturbed.percent_change Notebook.du_a Notebook.du_phi Notebook.z
       Notebook.du_gamma Notebook.lam Notebook.delta_gpgp_plastic_conc /\
   Notebook.sq_percent_change
   = Perturbed.percent_change Notebook.sq_a Notebook.sq_phi Notebook.z
       Notebook.sq_gamma Notebook.lam Notebook.delta_gpgp_plastic_conc /\
   Notebook.th_percent_change
   = Perturbed.percent_change Notebook.th_a Notebook.th_phi Notebook.z
       Notebook.th_gamma Notebook.lam Notebook.delta_gpgp_plastic_conc) /\
  (Notebook.du_percent_change
   = Model.percent_change Notebook.du_bmf_new Notebook.du_bmf /\
   Notebook.sq_percent_change
   = Model.percent_change Notebook.sq_bmf_new Notebook.sq_bmf /\
   Notebook.th_percent_change
   = Model.percent_change Notebook.th_bmf_new Notebook.th_bmf) /\
  Notebook.report
  = Perturbed.report Notebook.num_students Notebook.avg_boba_per_month
      Notebook.vol_plastic_per_straw.
Proof. conjs; reflexivity. Qed.

(** The literals of cell 6, read at the exact carrier, are the rationals of
    [Literal]. *)
Lemma cells_are_literals :
  (Notebook.sq_a = exact_array Literal.sq_a /\
   Notebook.sq_phi = exact_array Literal.sq_phi /\
   Notebook.sq_gamma = Some Literal.sq_gamma) /\
  (Notebook.th_a = exact_array Literal.th_a /\
   Notebook.th_phi = exact_array Literal.th_phi) /\
  Notebook.z = exact_array Literal.z.
Proof.
  unfold Notebook.sq_a, Notebook.sq_phi, Notebook.sq_gamma, Notebook.th_a,
    Notebook.th_phi, Notebook.z.
  rewrite !lit_exact. conjs; reflexivity.
Qed.

(** Order, equality and difference of given rationals, by evaluation. *)
Ltac Qc_decide :=
  first [ apply Qclt_alt; vm_compute; reflexivity
        | apply Qcle_alt; vm_compute; discriminate
        | apply Qc_is_canon; vm_compute; reflexivity
        | Qc_neq ].

(** The hypotheses of a property at given vectors of literals. *)
Ltac at_literals :=
  unfold entries, total, Literal.sq_a, Literal.sq_phi, Literal.th_a,
    Literal.th_phi, Literal.z, Literal.sq_gamma, rational_array;
  cbn [item0 item1 item2];
  conjs; first [ lia | Qc_decide ].

(** Order and arithmetic of [Qc], read in [Q] where [lra] and [nra] work. *)
Ltac to_Q :=
  unfold Qcle, Qclt, Qcdiv, Qcminus, Qcplus, Qcmult, Qcopp, Qcinv in *;
  cbn [this Q2Qc] in *;
  repeat match goal with
         | H : context [Qred _] |- _ => rewrite Qred_correct in H
         | |- context [Qred _] => rewrite Qred_correct
         end.

Lemma Qc_pos_neq (q : Qc) : (Q2Qc 0 < q)%Qc -> q <> Q2Qc 0.
Proof.
  intros Hq E. rewrite E in Hq. revert Hq. apply Qcle_not_lt, Qcle_refl.
Qed.

(** A quotient by a positive rational lies between two bounds when the
    numerator lies between the bounds scaled by the divisor. *)
Lemma Qc_div_between (n w lo hi : Qc) :
  (Q2Qc 0 < w -> lo * w <= n -> n <= hi * w -> lo <= n / w <= hi)%Qc.
Proof.
  intros Hw Hlo Hhi.
  assert (E : (n / w * w = n)%Qc) by (field; apply Qc_pos_neq, Hw).
  split; apply (Qcmult_lt_0_le_reg_r _ _ w Hw); rewrite E; assumption.
Qed.

(** The inverse reverses the order of positive rationals. *)
Lemma Qc_inv_between (d lo hi : Qc) :
  (Q2Qc 0 < lo -> lo <= d -> d <= hi ->
   Q2Qc 1 / hi <= Q2Qc 1 / d <= Q2Qc 1 / lo)%Qc.
Proof.
  intros Hlo Hld Hdh.
  assert (Hd : (Q2Qc 0 < d)%Qc) by (apply (Qclt_le_trans _ lo); assumption).
  assert (Hhi : (Q2Qc 0 < hi)%Qc) by (apply (Qclt_le_trans _ d); assumption).
  assert (El : (Q2Qc 1 <= Q2Qc 1 / lo * lo)%Qc).
  { replace (Q2Qc 1 / lo * lo)%Qc with (Q2Qc 1)
      by (field; apply Qc_pos_neq, Hlo). apply Qcle_refl. }
  assert (Eh : (Q2Qc 1 / hi * hi <= Q2Qc 1)%Qc).
  { replace (Q2Qc 1 / hi * hi)%Qc with (Q2Qc 1)
      by (field; apply Qc_pos_neq, Hhi). apply Qcle_refl. }
  apply (Qc_div_between _ _ _ _ Hd);
    revert El Eh; generalize (Q2Qc 1 / lo)%Qc (Q2Qc 1 / hi)%Qc;
    intros il ih El Eh; to_Q; nra.
Qed.

Lemma Qc_complement_between (x g : Qc) :
  (Q2Qc 0 <= x -> x <= Q2Qc 1 ->
   g <= Q2Qc 1 - x + g /\ Q2Qc 1 - x + g <= Q2Qc 1 + g)%Qc.
Proof. intros H0 H1. split; to_Q; lra. Qed.

(** ** Bounds *)

(** A weighted average with weights that are not negative lies between any
    two bounds of the averaged values. *)
Lemma weighted_digestibility_between (a phi z : array3 Qc) (lo hi : Qc) :
  entries (fun x => lo <= x <= hi)%Qc a ->
  entries (Qcle (Q2Qc 0)) phi ->
  entries (Qcle (Q2Qc 0)) z ->
  (Q2Qc 0 < Spec.weight phi z)%Qc ->
  (lo <= Spec.weighted_digestibility a phi z <= hi)%Qc.
Proof.
  intros Ha Hp Hz Hw. apply Qc_div_between; [exact Hw| |];
    destruct a as [a0 a1 a2], phi as [p0 p1 p2], z as [z0 z1 z2];
    destruct Ha as [[? ?] [[? ?] [? ?]]], Hp as [? [? ?]], Hz as [? [? ?]];
    unfold Spec.weight, Spec.sigma in *; cbn in *; to_Q;
    assert (0 <= p0 * z0)%Q by nra; assert (0 <= p1 * z1)%Q by nra;
    assert (0 <= p2 * z2)%Q by nra; nra.
Qed.

Lemma bmf_exact (a phi z : array3 Qc) (gamma : Qc) :
  Spec.weight phi z <> Q2Qc 0 ->
  Model.bmf (exact_array a) (exact_array phi) (exact_array z) (Some gamma)
  = (Some (Q2Qc 1) / Some (Spec.driving_force a phi z + gamma)%Qc)%num.
Proof.
  intros Hw. unfold Model.bmf, Model.beta. rewrite (az_exact a phi z Hw).
  reflexivity.
Qed.

(** X1: when the diet fractions and the concentrations are not negative and
    their weight sum_i phi_i*z_i is positive, the weighted digestibility is
    defined and lies between any two bounds of the entries of the
    digestibility vector. *)
Theorem az_between (a phi z : array3 Qc) (lo hi : Qc) :
  entries (fun x => lo <= x <= hi)%Qc a ->
  entries (Qcle (Q2Qc 0)) phi ->
  entries (Qcle (Q2Qc 0)) z ->
  (Q2Qc 0 < Spec.weight phi z)%Qc ->
  exact_le (Some lo) (Model.az (exact_array a)
      (exact_array phi) (exact_array z)) /\
  exact_le (Model.az (exact_array a)
      (exact_array phi) (exact_array z)) (Some hi).
Proof.
  intros Ha Hp Hz Hw.
  rewrite (az_exact a phi z (Qc_pos_neq _ Hw)). cbn [exact_le].
  apply weighted_digestibility_between; assumption.
Qed.

Lemma az_between_witness :
  (entries (fun x => Q2Qc 0 <= x <= Q2Qc 0.95)%Qc Literal.sq_a /\
   entries (Qcle (Q2Qc 0)) Literal.sq_phi /\
   entries (Qcle (Q2Qc 0)) Literal.z /\
   (Q2Qc 0 < Spec.weight Literal.sq_phi Literal.z)%Qc) /\
  exact_le (Some (Q2Qc 0))
    (Model.az (exact_array Literal.sq_a)
        (exact_array Literal.sq_phi) (exact_array Literal.z)) /\
  exact_le (Model.az (exact_array Literal.sq_a)
      (exact_array Literal.sq_phi) (exact_array Literal.z))
    (Some (Q2Qc 0.95)).
Proof.
  split; [at_literals|].
  apply (az_between Literal.sq_a Literal.sq_phi Literal.z
      (Q2Qc 0) (Q2Qc 0.95)); at_literals.
Defined.

(** X2: with digestibilities between 0 and 1, diet fractions and
    concentrations that are not negative, a positive weight and a positive
    gamma, the baseline BMF is defined and lies between 1/(1 + gamma) and
    1/gamma. *)
Theorem bmf_between (a phi z : array3 Qc) (gamma : Qc) :
  entries (fun x => Q2Qc 0 <= x <= Q2Qc 1)%Qc a ->
  entries (Qcle (Q2Qc 0)) phi ->
  entries (Qcle (Q2Qc 0)) z ->
  (Q2Qc 0 < Spec.weight phi z)%Qc ->
  (Q2Qc 0 < gamma)%Qc ->
  exact_le (Some (Q2Qc 1 / (Q2Qc 1 + gamma))%Qc)
    (Model.bmf (exact_array a)
        (exact_array phi) (exact_array z) (Some gamma)) /\
  exact_le
    (Model.bmf (exact_array a) (exact_array phi) (exact_array z) (Some gamma))
    (Some (Q2Qc 1 / gamma)%Qc).
Proof.
  intros Ha Hp Hz Hw Hg.
  destruct (weighted_digestibility_between a phi z _ _ Ha Hp Hz Hw) as [H0 H1].
  assert (Hlo : (gamma <= Spec.driving_force a phi z + gamma)%Qc)
    by exact (proj1 (Qc_complement_between _ gamma H0 H1)).
  assert (Hhi : (Spec.driving_force a phi z + gamma <= Q2Qc 1 + gamma)%Qc)
    by exact (proj2 (Qc_complement_between _ gamma H0 H1)).
  rewrite (bmf_exact a phi z gamma (Qc_pos_neq _ Hw)).
  rewrite exact_div_some
    by (apply Qc_pos_neq, (Qclt_le_trans _ gamma); assumption).
  cbn [exact_le]. apply Qc_inv_between; assumption.
Qed.

Lemma bmf_between_witness :
  (entries (fun x => Q2Qc 0 <= x <= Q2Qc 1)%Qc Literal.sq_a /\
   entries (Qcle (Q2Qc 0)) Literal.sq_phi /\
   entries (Qcle (Q2Qc 0)) Literal.z /\
   (Q2Qc 0 < Spec.weight Literal.sq_phi Literal.z)%Qc /\
   (Q2Qc 0 < Literal.sq_gamma)%Qc) /\
  exact_le (Some (Q2Qc 1 / (Q2Qc 1 + Literal.sq_gamma))%Qc)
    (Model.bmf (exact_array Literal.sq_a)
        (exact_array Literal.sq_phi) (exact_array Literal.z)
        (Some Literal.sq_gamma)) /\
  exact_le
    (Model.bmf (exact_array Literal.sq_a)
        (exact_array Literal.sq_phi) (exact_array Literal.z)
        (Some Literal.sq_gamma))
    (Some (Q2Qc 1 / Literal.sq_gamma)%Qc).
Proof.
  split; [at_literals|].
  apply (bmf_between Literal.sq_a
      Literal.sq_phi Literal.z Literal.sq_gamma); at_literals.
Defined.

(** X3: with every concentration positive and diet fractions that are not
    negative and not all zero, the weight sum_i phi_i*z_i is positive, so
    the division of the weighted digestibility is not a division by zero,
    whatever the digestibility vector. *)
Theorem weight_positive (phi z : array3 Qc) :
  entries (Qclt (Q2Qc 0)) z ->
  entries (Qcle (Q2Qc 0)) phi ->
  (Q2Qc 0 < total phi)%Qc ->
  (Q2Qc 0 < Spec.weight phi z)%Qc /\
  forall a : array3 Qc,
    Model.az (exact_array a) (exact_array phi) (exact_array z)
    = Some (Spec.weighted_digestibility a phi z).
Proof.
  intros Hz Hp Ht.
  assert (Hw : (Q2Qc 0 < Spec.weight phi z)%Qc).
  { destruct phi as [p0 p1 p2], z as [z0 z1 z2];
      destruct Hp as [? [? ?]], Hz as [? [? ?]];
      unfold Spec.weight, Spec.sigma, total in *; cbn in *; to_Q.
    assert (0 <= p0 * z0)%Q by nra. assert (0 <= p1 * z1)%Q by nra.
    assert (0 <= p2 * z2)%Q by nra.
    assert (0 < p0 \/ 0 < p1 \/ 0 < p2)%Q as [P|[P|P]].
    { destruct (Qlt_le_dec 0 p0); [left; assumption|].
      destruct (Qlt_le_dec 0 p1); [right; left; assumption|].
      right; right. lra. }
    - assert (0 < p0 * z0)%Q by nra. lra.
    - assert (0 < p1 * z1)%Q by nra. lra.
    - assert (0 < p2 * z2)%Q by nra. lra. }
  split; [exact Hw|]. intros a. apply az_exact, Qc_pos_neq, Hw.
Qed.

Lemma weight_positive_witness :
  (entries (Qclt (Q2Qc 0)) Literal.z /\
   entries (Qcle (Q2Qc 0)) Literal.th_phi /\
   (Q2Qc 0 < total Literal.th_phi)%Qc) /\
  (Q2Qc 0 < Spec.weight Literal.th_phi Literal.z)%Qc /\
  forall a : array3 Qc,
    Model.az (exact_array a)
        (exact_array Literal.th_phi) (exact_array Literal.z)
    = Some (Spec.weighted_digestibility a Literal.th_phi Literal.z).
Proof.
  split; [at_literals|].
  apply (weight_positive Literal.th_phi Literal.z); at_literals.
Defined.

(** ** Weights *)

Lemma weight_scaled_l (k : Qc) (phi z : array3 Qc) :
  Spec.weight (scaled k phi) z = (k * Spec.weight phi z)%Qc.
Proof.
  destruct phi, z. unfold Spec.weight, Spec.sigma, scaled, array_map.
  cbn [fold_right Spec.item item0 item1 item2]. ring.
Qed.

Lemma weight_scaled_r (k : Qc) (phi z : array3 Qc) :
  Spec.weight phi (scaled k z) = (k * Spec.weight phi z)%Qc.
Proof.
  destruct phi, z. unfold Spec.weight, Spec.sigma, scaled, array_map.
  cbn [fold_right Spec.item item0 item1 item2]. ring.
Qed.

Lemma Qc_mult_neq (k w : Qc) :
  k <> Q2Qc 0 -> w <> Q2Qc 0 -> (k * w)%Qc <> Q2Qc 0.
Proof.
  intros Hk Hw E. apply Qcmult_integral in E. destruct E; contradiction.
Qed.

(** X4: with a weight that is not zero, multiplying every diet fraction,
    or every concentration, by one factor that is not zero leaves the
    weighted digestibility unchanged, and multiplying every digestibility by
    a factor multiplies it by that factor. *)
Theorem az_scale_invariant (a phi z : array3 Qc) (k : Qc) :
  Spec.weight phi z <> Q2Qc 0 ->
  k <> Q2Qc 0 ->
  Model.az (exact_array a) (exact_array (scaled k phi)) (exact_array z)
  = Model.az (exact_array a) (exact_array phi) (exact_array z) /\
  Model.az (exact_array a) (exact_array phi) (exact_array (scaled k z))
  = Model.az (exact_array a) (exact_array phi) (exact_array z) /\
  Model.az (exact_array (scaled k a)) (exact_array phi) (exact_array z)
  = (Some k * Model.az (exact_array a) (exact_array phi) (exact_array z))%num.
Proof.
  intros Hw Hk.
  assert (Hl : Spec.weight (scaled k phi) z <> Q2Qc 0)
    by (rewrite weight_scaled_l; apply Qc_mult_neq; assumption).
  assert (Hr : Spec.weight phi (scaled k z) <> Q2Qc 0)
    by (rewrite weight_scaled_r; apply Qc_mult_neq; assumption).
  rewrite (az_exact a _ _ Hl), (az_exact a _ _ Hr), !(az_exact _ phi z Hw).
  cbn [nmul exact_number exact_lift].
  unfold Spec.weighted_digestibility.
  rewrite weight_scaled_l, weight_scaled_r.
  remember (Spec.weight phi z) as w eqn:Ew. clear Ew Hl Hr.
  destruct a as [a0 a1 a2], phi as [p0 p1 p2], z as [z0 z1 z2].
  unfold Spec.sigma, scaled, array_map.
  cbn [fold_right Spec.item item0 item1 item2].
  conjs; f_equal; field; auto.
Qed.

Lemma az_scale_invariant_witness :
  (Spec.weight Literal.sq_phi Literal.z <> Q2Qc 0 /\ Q2Qc 100 <> Q2Qc 0) /\
  Model.az
      (exact_array Literal.sq_a) (exact_array (scaled (Q2Qc 100)
      Literal.sq_phi)) (exact_array Literal.z)
  = Model.az (exact_array Literal.sq_a)
      (exact_array Literal.sq_phi) (exact_array Literal.z) /\
  Model.az (exact_array Literal.sq_a)
      (exact_array Literal.sq_phi) (exact_array (scaled (Q2Qc 100) Literal.z))
  = Model.az (exact_array Literal.sq_a)
      (exact_array Literal.sq_phi) (exact_array Literal.z) /\
  Model.az (exact_array (scaled (Q2Qc 100) Literal.sq_a))
      (exact_array Literal.sq_phi) (exact_array Literal.z)
  = (Some (Q2Qc 100) * Model.az (exact_array Literal.sq_a)
      (exact_array Literal.sq_phi) (exact_array Literal.z))%num.
Proof.
  split; [at_literals|].
  apply (az_scale_invariant Literal.sq_a
      Literal.sq_phi Literal.z (Q2Qc 100)); at_literals.
Defined.

(** X5: the weighted digestibility does not depend on the digestibility of
    a nutrient whose diet fraction times concentration is zero: two
    digestibility vectors that agree on every nutrient of nonzero weight
    give the same result, defined or not. *)
Theorem az_ignores_unweighted (a a' phi z : array3 Qc) :
  (forall i : nat,
     (Spec.item i phi * Spec.item i z)%Qc = Q2Qc 0 \/
     Spec.item i a = Spec.item i a') ->
  Model.az (exact_array a) (exact_array phi) (exact_array z)
  = Model.az (exact_array a') (exact_array phi) (exact_array z).
Proof.
  intros H. unfold Model.az. rewrite !np_sum_exact. do 2 f_equal.
  assert (E : forall i : nat,
            (Spec.item i a * Spec.item i phi * Spec.item i z
             = Spec.item i a' * Spec.item i phi * Spec.item i z)%Qc).
  { intros i. destruct (H i) as [Hz|Ha].
    - rewrite <- !Qcmult_assoc, Hz. ring.
    - rewrite Ha. reflexivity. }
  unfold Spec.sigma. cbn [fold_right]. rewrite !E. reflexivity.
Qed.

Lemma az_ignores_unweighted_witness :
  (forall i : nat,
     (Spec.item i Literal.th_phi * Spec.item i Literal.z)%Qc = Q2Qc 0 \/
     Spec.item i Literal.th_a = Spec.item i (rational_array 0.85 0 0.96)) /\
  Model.az (exact_array Literal.th_a)
      (exact_array Literal.th_phi) (exact_array Literal.z)
  = Model.az (exact_array (rational_array 0.85 0 0.96))
      (exact_array Literal.th_phi) (exact_array Literal.z).
Proof.
  assert (H : forall i : nat,
            (Spec.item i Literal.th_phi * Spec.item i Literal.z)%Qc = Q2Qc 0 \/
            Spec.item i Literal.th_a = Spec.item i (rational_array 0.85 0 0.96)).
  { intros [|[|i]]; [right; reflexivity|left; Qc_decide|right; reflexivity]. }
  split; [exact H|].
  apply (az_ignores_unweighted Literal.th_a (rational_array 0.85 0 0.96) Literal.th_phi Literal.z).
  exact H.
Defined.

(** ** The perturbation *)

Lemma Qc_inv_pos (d : Qc) : (Q2Qc 0 < d -> Q2Qc 0 < Q2Qc 1 / d)%Qc.
Proof.
  intros Hd. assert (H := Qinv_lt_0_compat d Hd).
  to_Q. rewrite Qmult_1_l. exact H.
Qed.

Lemma Qc_inv_neg (d : Qc) : (d < Q2Qc 0 -> Q2Qc 1 / d < Q2Qc 0)%Qc.
Proof.
  intros Hd.
  assert (Hn : d <> Q2Qc 0).
  { intros E. rewrite E in Hd. revert Hd. apply Qcle_not_lt, Qcle_refl. }
  assert (Hp : (Q2Qc 0 < - d)%Qc) by (clear Hn; to_Q; lra).
  assert (Hm : (- d)%Qc <> Q2Qc 0) by (apply Qc_pos_neq, Hp).
  apply Qc_inv_pos in Hp.
  replace (Q2Qc 1 / d)%Qc with (- (Q2Qc 1 / - d))%Qc
    by (field; split; assumption).
  revert Hp. generalize (Q2Qc 1 / - d)%Qc. intros i Hi. to_Q. lra.
Qed.

Lemma Qc_inv_lt (x y : Qc) :
  (Q2Qc 0 < x -> Q2Qc 0 < y -> (x < y <-> Q2Qc 1 / y < Q2Qc 1 / x))%Qc.
Proof.
  intros Hx Hy. assert (H := Qinv_lt_contravar x y Hx Hy).
  to_Q. rewrite !Qmult_1_l. exact H.
Qed.

Lemma Qc_inv_neq (d : Qc) : d <> Q2Qc 0 -> (Q2Qc 1 / d)%Qc <> Q2Qc 0.
Proof.
  intros Hd E.
  assert (H : (Q2Qc 1 / d * d = Q2Qc 1)%Qc) by (field; exact Hd).
  rewrite E in H. ring_simplify in H. discriminate H.
Qed.

Lemma Qc_sub_pos (d c : Qc) : (c < d -> Q2Qc 0 < d - c)%Qc.
Proof. intros H. to_Q. lra. Qed.

Lemma Qc_sub_neg (d c : Qc) : (d < c -> d - c < Q2Qc 0)%Qc.
Proof. intros H. to_Q. lra. Qed.

Lemma Qc_sub_lt (d c : Qc) : (d - c < d <-> Q2Qc 0 < c)%Qc.
Proof. split; intros H; to_Q; lra. Qed.

Lemma Qc_neg_neq (q : Qc) : (q < Q2Qc 0)%Qc -> q <> Q2Qc 0.
Proof.
  intros Hq E. rewrite E in Hq. revert Hq. apply Qcle_not_lt, Qcle_refl.
Qed.

(** The perturbed BMF is the inverse of the baseline denominator less the
    shift. *)
Lemma bmf_new_exact (a phi z : array3 Qc) (gamma lam delta : Qc) :
  Spec.weight phi z <> Q2Qc 0 ->
  Perturbed.bmf_new (exact_array a) (exact_array phi) (exact_array z)
    (Some gamma) (Some lam) (Some delta)
  = (Some (Q2Qc 1)
     / Some (Spec.driving_force a phi z + gamma - lam * delta)%Qc)%num.
Proof.
  intros Hw.
  unfold Perturbed.bmf_new, Perturbed.beta_new, Perturbed.az_new,
    Perturbed.a_new.
  cbn [nmul exact_number exact_lift].
  fold (Model.az (exact_array a [+] Some (lam * delta)%Qc)%array
          (exact_array phi) (exact_array z)).
  rewrite shift_exact, (az_exact _ phi z Hw).
  rewrite (weighted_digestibility_shift a phi z _ Hw).
  cbn [nadd nsub of_int exact_number exact_lift].
  do 2 f_equal. unfold Spec.driving_force.
  change (Qc_of_int 1) with (Q2Qc 1). ring.
Qed.

(** The percent change of the BMF in closed form. *)
Lemma percent_change_exact (a phi z : array3 Qc) (gamma lam delta : Qc) :
  Spec.weight phi z <> Q2Qc 0 ->
  (Spec.driving_force a phi z + gamma)%Qc <> Q2Qc 0 ->
  (Spec.driving_force a phi z + gamma - lam * delta)%Qc <> Q2Qc 0 ->
  Perturbed.percent_change (exact_array a) (exact_array phi) (exact_array z)
    (Some gamma) (Some lam) (Some delta)
  = Some (Q2Qc 100 * (lam * delta)
          / (Spec.driving_force a phi z + gamma - lam * delta))%Qc.
Proof.
  intros Hw Hd Hn. unfold Perturbed.percent_change.
  rewrite (bmf_new_exact a phi z gamma lam delta Hw), (bmf_exact a phi z gamma Hw).
  rewrite (exact_div_some _ _ Hd), (exact_div_some _ _ Hn).
  cbn [nsub exact_number exact_lift].
  rewrite (exact_div_some _ _ (Qc_inv_neq _ Hd)).
  cbn [nmul of_int exact_number exact_lift]. f_equal.
  change (Qc_of_int 100) with (Q2Qc 100).
  revert Hd Hn. generalize (Spec.driving_force a phi z + gamma)%Qc.
  intros d Hd Hn. field. repeat split; try assumption. Qc_neq.
Qed.

(** X6: with a weight that is not zero, the perturbed BMF is
    1/(beta + gamma - lam*delta), beta the baseline driving force, and it is
    undefined exactly when lam*delta equals beta + gamma. *)
Theorem perturbed_bmf_closed_form (a phi z : array3 Qc) (gamma lam delta : Qc) :
  Spec.weight phi z <> Q2Qc 0 ->
  Perturbed.bmf_new (exact_array a) (exact_array phi) (exact_array z)
    (Some gamma) (Some lam) (Some delta)
  = if Qc_is_zero (Spec.driving_force a phi z + gamma - lam * delta)
    then None
    else Some (Q2Qc 1 / (Spec.driving_force a phi z + gamma - lam * delta))%Qc.
Proof.
  intros Hw. rewrite (bmf_new_exact a phi z gamma lam delta Hw). reflexivity.
Qed.

Lemma perturbed_bmf_closed_form_witness :
  Spec.weight Literal.sq_phi Literal.z <> Q2Qc 0 /\
  Perturbed.bmf_new (exact_array Literal.sq_a)
      (exact_array Literal.sq_phi) (exact_array Literal.z)
    (Some Literal.sq_gamma) (Some (Q2Qc 1e5)) (Some (Q2Qc 2.2446e-10))
  = if Qc_is_zero ((Spec.driving_force Literal.sq_a Literal.sq_phi Literal.z
      + Literal.sq_gamma) - Q2Qc 1e5 * Q2Qc 2.2446e-10)
    then None
    else Some (Q2Qc 1 / ((Spec.driving_force Literal.sq_a
        Literal.sq_phi Literal.z
        + Literal.sq_gamma) - Q2Qc 1e5 * Q2Qc 2.2446e-10))%Qc.
Proof.
  split; [at_literals|].
  apply (perturbed_bmf_closed_form Literal.sq_a
      Literal.sq_phi Literal.z Literal.sq_gamma
           (Q2Qc 1e5) (Q2Qc 2.2446e-10)); at_literals.
Defined.

(** X7: with a weight that is not zero, a positive baseline denominator
    beta + gamma and a shift lam*delta below it, the perturbed BMF is above
    the baseline BMF exactly when lam*delta is positive. *)
Theorem perturbation_direction (a phi z : array3 Qc) (gamma lam delta : Qc) :
  Spec.weight phi z <> Q2Qc 0 ->
  (Q2Qc 0 < Spec.driving_force a phi z + gamma)%Qc ->
  (lam * delta < Spec.driving_force a phi z + gamma)%Qc ->
  exact_lt
    (Model.bmf (exact_array a) (exact_array phi) (exact_array z) (Some gamma))
    (Perturbed.bmf_new (exact_array a) (exact_array phi) (exact_array z)
       (Some gamma) (Some lam) (Some delta))
  <-> (Q2Qc 0 < lam * delta)%Qc.
Proof.
  intros Hw Hd Hc.
  assert (Hn := Qc_sub_pos _ _ Hc).
  rewrite (bmf_new_exact a phi z gamma lam delta Hw), (bmf_exact a phi z gamma Hw).
  rewrite (exact_div_some _ _ (Qc_pos_neq _ Hd)),
    (exact_div_some _ _ (Qc_pos_neq _ Hn)).
  cbn [exact_lt]. rewrite <- (Qc_inv_lt _ _ Hn Hd). apply Qc_sub_lt.
Qed.

Lemma perturbation_direction_witness :
  (Spec.weight Literal.sq_phi Literal.z <> Q2Qc 0 /\
   (Q2Qc 0 < (Spec.driving_force Literal.sq_a Literal.sq_phi Literal.z
       + Literal.sq_gamma))%Qc /\
   (Q2Qc 1e5 * Q2Qc 2.2446e-10 <
       (Spec.driving_force Literal.sq_a
       Literal.sq_phi Literal.z
       + Literal.sq_gamma))%Qc) /\
  (exact_lt
     (Model.bmf (exact_array Literal.sq_a)
         (exact_array Literal.sq_phi) (exact_array Literal.z)
    (Some Literal.sq_gamma))
     (Perturbed.bmf_new (exact_array Literal.sq_a)
         (exact_array Literal.sq_phi) (exact_array Literal.z)
    (Some Literal.sq_gamma) (Some (Q2Qc 1e5)) (Some (Q2Qc 2.2446e-10)))
   <-> (Q2Qc 0 < Q2Qc 1e5 * Q2Qc 2.2446e-10)%Qc).
Proof.
  split; [at_literals|].
  apply (perturbation_direction Literal.sq_a
      Literal.sq_phi Literal.z Literal.sq_gamma
           (Q2Qc 1e5) (Q2Qc 2.2446e-10)); at_literals.
Defined.

(** X8: with a weight that is not zero, a shift lam*delta above the
    baseline denominator beta + gamma makes the perturbed BMF negative. *)
Theorem perturbation_overshoot (a phi z : array3 Qc) (gamma lam delta : Qc) :
  Spec.weight phi z <> Q2Qc 0 ->
  (Spec.driving_force a phi z + gamma < lam * delta)%Qc ->
  exact_lt
    (Perturbed.bmf_new (exact_array a) (exact_array phi) (exact_array z)
       (Some gamma) (Some lam) (Some delta))
    (Some (Q2Qc 0)).
Proof.
  intros Hw Hc.
  assert (Hn := Qc_sub_neg _ _ Hc).
  rewrite (bmf_new_exact a phi z gamma lam delta Hw).
  rewrite (exact_div_some _ _ (Qc_neg_neq _ Hn)).
  cbn [exact_lt]. apply Qc_inv_neg, Hn.
Qed.

Lemma perturbation_overshoot_witness :
  (Spec.weight Literal.sq_phi Literal.z <> Q2Qc 0 /\
   ((Spec.driving_force Literal.sq_a Literal.sq_phi Literal.z
       + Literal.sq_gamma) < Q2Qc 1e10 * Q2Qc 2.2446e-10)%Qc) /\
  exact_lt
    (Perturbed.bmf_new (exact_array Literal.sq_a)
        (exact_array Literal.sq_phi) (exact_array Literal.z)
    (Some Literal.sq_gamma) (Some (Q2Qc 1e10)) (Some (Q2Qc 2.2446e-10)))
    (Some (Q2Qc 0)).
Proof.
  split; [at_literals|].
  apply (perturbation_overshoot Literal.sq_a
      Literal.sq_phi Literal.z Literal.sq_gamma
           (Q2Qc 1e10) (Q2Qc 2.2446e-10)); at_literals.
Defined.

(** X9: with a weight that is not zero and both denominators
    beta + gamma and beta + gamma - lam*delta not zero, the percent change
    given to the chart is 100 * lam*delta / (beta + gamma - lam*delta). *)
Theorem percent_change_closed_form
    (a phi z : array3 Qc) (gamma lam delta : Qc) :
  Spec.weight phi z <> Q2Qc 0 ->
  (Spec.driving_force a phi z + gamma)%Qc <> Q2Qc 0 ->
  (Spec.driving_force a phi z + gamma - lam * delta)%Qc <> Q2Qc 0 ->
  Perturbed.percent_change (exact_array a) (exact_array phi) (exact_array z)
    (Some gamma) (Some lam) (Some delta)
  = Some (Q2Qc 100 * (lam * delta)
          / (Spec.driving_force a phi z + gamma - lam * delta))%Qc.
Proof. exact (percent_change_exact a phi z gamma lam delta). Qed.

Lemma percent_change_closed_form_witness :
  (Spec.weight Literal.sq_phi Literal.z <> Q2Qc 0 /\
   (Spec.driving_force Literal.sq_a Literal.sq_phi Literal.z
       + Literal.sq_gamma) <> Q2Qc 0 /\
   ((Spec.driving_force Literal.sq_a Literal.sq_phi Literal.z
       + Literal.sq_gamma) - Q2Qc 1e5 * Q2Qc 2.2446e-10)%Qc <> Q2Qc 0) /\
  Perturbed.percent_change (exact_array Literal.sq_a)
      (exact_array Literal.sq_phi) (exact_array Literal.z)
    (Some Literal.sq_gamma) (Some (Q2Qc 1e5)) (Some (Q2Qc 2.2446e-10))
  = Some (Q2Qc 100 * (Q2Qc 1e5 * Q2Qc 2.2446e-10)
          / ((Spec.driving_force Literal.sq_a Literal.sq_phi Literal.z
              + Literal.sq_gamma) - Q2Qc 1e5 * Q2Qc 2.2446e-10))%Qc.
Proof.
  split; [at_literals|].
  apply (percent_change_closed_form Literal.sq_a
      Literal.sq_phi Literal.z Literal.sq_gamma
           (Q2Qc 1e5) (Q2Qc 2.2446e-10)); at_literals.
Defined.

(** ** The estimate *)

Lemma ocean_exact (n r : Z) (v : Qc) :
  Model.ocean_plastic_per_year n r (Some v)
  = Some (Q2Qc 0.03 * (Qc_of_int n * Qc_of_int r * v * Q2Qc 12))%Qc.
Proof.
  unfold Model.ocean_plastic_per_year. rewrite waste_exact, lit_exact.
  reflexivity.
Qed.

(** The three concentrations of cell 9 in closed form. *)
Lemma concentrations_exact (n r : Z) (v area : Qc) :
  area <> Q2Qc 0 ->
  Model.gpgp_cur_plastic_conc (Some area)
  = Some (Q2Qc 7.9e7 / Q2Qc 0.92 / area)%Qc /\
  Model.gpgp_new_plastic_conc n r (Some v) (Some area)
  = Some ((Q2Qc 7.9e7 / Q2Qc 0.92
           + Q2Qc 0.29
             * (Q2Qc 0.03 * (Qc_of_int n * Qc_of_int r * v * Q2Qc 12)))
          / area)%Qc /\
  Model.delta_gpgp_plastic_conc n r (Some v) (Some area)
  = Some (Q2Qc 0.29
          * (Q2Qc 0.03 * (Qc_of_int n * Qc_of_int r * v * Q2Qc 12))
          / area)%Qc.
Proof.
  intros Ha.
  assert (Hd : Q2Qc 0.92 <> Q2Qc 0) by Qc_neq.
  unfold Model.delta_gpgp_plastic_conc, Model.gpgp_new_plastic_conc,
    Model.gpgp_cur_plastic_conc, Model.gpgp_new_plastic,
    Model.gpgp_cur_plastic.
  rewrite ocean_exact, !lit_exact.
  rewrite (exact_div_some (Q2Qc 7.9e7) (Q2Qc 0.92) Hd).
  cbn [nadd nsub nmul exact_number exact_lift].
  rewrite !(exact_div_some _ area Ha).
  cbn [exact_lift]. split; [reflexivity|]. split; [reflexivity|].
  f_equal. field. split; assumption.
Qed.

Lemma Qc_of_int_nonneg (n : Z) : (0 <= n)%Z -> (Q2Qc 0 <= Qc_of_int n)%Qc.
Proof. intros Hn. apply (Qc_of_int_le 0 n Hn). Qed.

(** The waste volume of inputs that are not negative is not negative. *)
Lemma waste_nonneg (n r : Z) (v : Qc) :
  (0 <= n)%Z -> (0 <= r)%Z -> (Q2Qc 0 <= v)%Qc ->
  (Q2Qc 0 <= Qc_of_int n * Qc_of_int r * v * Q2Qc 12)%Qc.
Proof.
  intros Hn Hr Hv.
  apply Qc_of_int_nonneg in Hn. apply Qc_of_int_nonneg in Hr.
  revert Hn Hr. generalize (Qc_of_int n) (Qc_of_int r). intros x y Hx Hy.
  to_Q. assert (0 <= x * y)%Q by nra. nra.
Qed.

(** Adding a share of a volume that is not negative to a numerator does
    not lower a quotient by a positive area. *)
Lemma quotient_grows (c w area : Qc) :
  (Q2Qc 0 <= w)%Qc -> (Q2Qc 0 < area)%Qc ->
  (Q2Qc 0 <= Q2Qc 0.29 * (Q2Qc 0.03 * w) / area)%Qc /\
  (c / area <= (c + Q2Qc 0.29 * (Q2Qc 0.03 * w)) / area)%Qc.
Proof.
  intros Hw Ha. assert (Hi := Qc_inv_pos area Ha).
  unfold Qcdiv in *. revert Hi. generalize (/ area)%Qc. intros i Hi.
  clear Ha. split; to_Q; nra.
Qed.

(** X10: when the population or the monthly consumption is zero, the
    concentration delta is zero, the perturbed BMF is the baseline BMF and
    the percent change is zero, for every area, weight and baseline
    denominator that are not zero and every lam. *)
Theorem no_consumption_no_change
    (n r : Z) (v area : Qc) (a phi z : array3 Qc) (gamma lam : Qc) :
  (n * r = 0)%Z ->
  area <> Q2Qc 0 ->
  Spec.weight phi z <> Q2Qc 0 ->
  (Spec.driving_force a phi z + gamma)%Qc <> Q2Qc 0 ->
  Model.delta_gpgp_plastic_conc n r (Some v) (Some area) = Some (Q2Qc 0) /\
  Perturbed.bmf_new (exact_array a) (exact_array phi) (exact_array z)
    (Some gamma) (Some lam)
    (Model.delta_gpgp_plastic_conc n r (Some v) (Some area))
  = Model.bmf (exact_array a) (exact_array phi) (exact_array z) (Some gamma) /\
  Perturbed.percent_change (exact_array a) (exact_array phi) (exact_array z)
    (Some gamma) (Some lam)
    (Model.delta_gpgp_plastic_conc n r (Some v) (Some area))
  = Some (Q2Qc 0).
Proof.
  intros Hnr Ha Hw Hd.
  assert (E : Model.delta_gpgp_plastic_conc n r (Some v) (Some area)
              = Some (Q2Qc 0)).
  { destruct (concentrations_exact n r v area Ha) as [_ [_ ->]].
    f_equal. rewrite <- Qc_of_int_mul, Hnr.
    change (Qc_of_int 0) with (Q2Qc 0). field. exact Ha. }
  assert (Hn : (Spec.driving_force a phi z + gamma - lam * Q2Qc 0)%Qc
               <> Q2Qc 0).
  { intros H. apply Hd.
    transitivity (Spec.driving_force a phi z + gamma - lam * Q2Qc 0)%Qc;
      [ring|exact H]. }
  rewrite E. split; [reflexivity|]. split.
  - rewrite (bmf_new_exact a phi z gamma lam _ Hw), (bmf_exact a phi z gamma Hw).
    do 2 f_equal. ring.
  - rewrite (percent_change_exact a phi z gamma lam _ Hw Hd Hn).
    f_equal. field. exact Hd.
Qed.

Lemma no_consumption_no_change_witness :
  ((43000 * 0 = 0)%Z /\ Q2Qc 1.6e12 <> Q2Qc 0 /\
   Spec.weight Literal.sq_phi Literal.z <> Q2Qc 0 /\
   (Spec.driving_force Literal.sq_a Literal.sq_phi Literal.z
       + Literal.sq_gamma) <> Q2Qc 0) /\
  Perturbed.percent_change (exact_array Literal.sq_a)
      (exact_array Literal.sq_phi) (exact_array Literal.z)
    (Some Literal.sq_gamma) (Some (Q2Qc 1e5))
    (Model.delta_gpgp_plastic_conc 43000 0 (Some (Q2Qc 0.016))
       (Some (Q2Qc 1.6e12)))
  = Some (Q2Qc 0).
Proof.
  split; [at_literals|].
  apply (no_consumption_no_change 43000 0 (Q2Qc 0.016) (Q2Qc 1.6e12)
           Literal.sq_a
               Literal.sq_phi Literal.z Literal.sq_gamma (Q2Qc 1e5)); at_literals.
Defined.

(** X11: for a population, a consumption and a container volume that are
    not negative and a positive area, the concentration delta is not
    negative and the new concentration is not below the current one. *)
Theorem delta_nonnegative (n r : Z) (v area : Qc) :
  (0 <= n)%Z -> (0 <= r)%Z -> (Q2Qc 0 <= v)%Qc -> (Q2Qc 0 < area)%Qc ->
  exact_le (of_int 0) (Model.delta_gpgp_plastic_conc n r (Some v) (Some area)) /\
  exact_le (Model.gpgp_cur_plastic_conc (Some area))
    (Model.gpgp_new_plastic_conc n r (Some v) (Some area)).
Proof.
  intros Hn Hr Hv Ha.
  destruct (concentrations_exact n r v area (Qc_pos_neq _ Ha))
    as [-> [-> ->]].
  cbn [exact_le of_int exact_number]. change (Qc_of_int 0) with (Q2Qc 0).
  apply quotient_grows; [apply waste_nonneg|]; assumption.
Qed.

Lemma delta_nonnegative_witness :
  ((0 <= 43000)%Z /\ (0 <= 5)%Z /\ (Q2Qc 0 <= Q2Qc 0.016)%Qc /\
   (Q2Qc 0 < Q2Qc 1.6e12)%Qc) /\
  exact_le (of_int 0)
    (Model.delta_gpgp_plastic_conc 43000 5 (Some (Q2Qc 0.016))
       (Some (Q2Qc 1.6e12))) /\
  exact_le (Model.gpgp_cur_plastic_conc (Some (Q2Qc 1.6e12)))
    (Model.gpgp_new_plastic_conc 43000 5 (Some (Q2Qc 0.016))
       (Some (Q2Qc 1.6e12))).
Proof.
  split; [at_literals|].
  apply (delta_nonnegative 43000 5 (Q2Qc 0.016) (Q2Qc 1.6e12)); at_literals.
Defined.

(** X12: for an area that is not zero, the concentration delta is additive
    in the monthly consumption and an integer multiple of the consumption
    multiplies it by that integer. *)
Theorem delta_linear (n r r' : Z) (v area : Qc) :
  area <> Q2Qc 0 ->
  Model.delta_gpgp_plastic_conc n (r + r') (Some v) (Some area)
  = (Model.delta_gpgp_plastic_conc n r (Some v) (Some area)
     + Model.delta_gpgp_plastic_conc n r' (Some v) (Some area))%num /\
  forall k : Z,
    Model.delta_gpgp_plastic_conc n (k * r) (Some v) (Some area)
    = (of_int k * Model.delta_gpgp_plastic_conc n r (Some v) (Some area))%num.
Proof.
  intros Ha. split; [|intros k].
  - destruct (concentrations_exact n (r + r') v area Ha) as [_ [_ ->]].
    destruct (concentrations_exact n r v area Ha) as [_ [_ ->]].
    destruct (concentrations_exact n r' v area Ha) as [_ [_ ->]].
    rewrite Qc_of_int_add. cbn [nadd exact_number exact_lift].
    f_equal. field. exact Ha.
  - destruct (concentrations_exact n (k * r) v area Ha) as [_ [_ ->]].
    destruct (concentrations_exact n r v area Ha) as [_ [_ ->]].
    rewrite Qc_of_int_mul. cbn [nmul of_int exact_number exact_lift].
    f_equal. field. exact Ha.
Qed.

Lemma delta_linear_witness :
  Q2Qc 1.6e12 <> Q2Qc 0 /\
  Model.delta_gpgp_plastic_conc 43000 (5 + 3) (Some (Q2Qc 0.016))
    (Some (Q2Qc 1.6e12))
  = (Model.delta_gpgp_plastic_conc 43000 5 (Some (Q2Qc 0.016))
       (Some (Q2Qc 1.6e12))
     + Model.delta_gpgp_plastic_conc 43000 3 (Some (Q2Qc 0.016))
         (Some (Q2Qc 1.6e12)))%num /\
  forall k : Z,
    Model.delta_gpgp_plastic_conc 43000 (k * 5) (Some (Q2Qc 0.016))
      (Some (Q2Qc 1.6e12))
    = (of_int k * Model.delta_gpgp_plastic_conc 43000 5 (Some (Q2Qc 0.016))
                    (Some (Q2Qc 1.6e12)))%num.
Proof.
  split; [at_literals|].
  apply (delta_linear 43000 5 3 (Q2Qc 0.016) (Q2Qc 1.6e12)); at_literals.
Defined.

(** ** The report and the chart *)

(** [int] of a rational that is not negative is its floor. *)
Lemma exact_to_int_floor (q : Qc) :
  (Q2Qc 0 <= q)%Qc -> to_int (Some q) = Some (Qfloor q).
Proof.
  intros Hq. cbn [to_int exact_number exact_to_int]. f_equal.
  destruct q as [[n d] Hc]. cbn [this Qnum Qden Qfloor] in *.
  apply Z.quot_div_nonneg; [|reflexivity].
  unfold Qcle, Qle in Hq. cbn in Hq. lia.
Qed.

Lemma ocean_below_waste (w : Qc) :
  (Q2Qc 0 <= w -> Q2Qc 0 <= Q2Qc 0.03 * w /\ Q2Qc 0.03 * w <= w)%Qc.
Proof. intros Hw. split; to_Q; lra. Qed.

(** X13: for a population, a consumption and a container volume that are
    not negative, the printed sentence shows two integers w and o with
    0 <= o <= w, and w is the floor of the waste volume:
    w <= plastic_waste_per_year < w + 1. *)
Theorem report_truncates (n r : Z) (v : Qc) :
  (0 <= n)%Z -> (0 <= r)%Z -> (Q2Qc 0 <= v)%Qc ->
  exists w o : Z,
    Perturbed.report n r (Some v) = (Some w, Some o) /\
    (0 <= o <= w)%Z /\
    exact_le (of_int w) (Model.plastic_waste_per_year n r (Some v)) /\
    exact_lt (Model.plastic_waste_per_year n r (Some v)) (of_int (w + 1)).
Proof.
  intros Hn Hr Hv. assert (Hw := waste_nonneg n r v Hn Hr Hv).
  unfold Perturbed.report. rewrite ocean_exact, waste_exact.
  revert Hw. generalize (Qc_of_int n * Qc_of_int r * v * Q2Qc 12)%Qc.
  intros w Hw. destruct (ocean_below_waste w Hw) as [Ho Hle].
  rewrite (exact_to_int_floor _ Hw), (exact_to_int_floor _ Ho).
  exists (Qfloor w), (Qfloor (Q2Qc 0.03 * w)%Qc).
  split; [reflexivity|]. split; [split|split].
  - apply (Qfloor_resp_le 0). exact Ho.
  - apply Qfloor_resp_le. exact Hle.
  - cbn [exact_le of_int exact_number]. unfold Qcle, Qc_of_int.
    cbn [this Q2Qc]. rewrite Qred_correct. apply Qfloor_le.
  - cbn [exact_lt of_int exact_number]. unfold Qclt, Qc_of_int.
    cbn [this Q2Qc]. rewrite Qred_correct. apply Qlt_floor.
Qed.

Lemma report_truncates_witness :
  ((0 <= 43000)%Z /\ (0 <= 5)%Z /\ (Q2Qc 0 <= Q2Qc 0.016)%Qc) /\
  exists w o : Z,
    Perturbed.report 43000 5 (Some (Q2Qc 0.016)) = (Some w, Some o) /\
    (0 <= o <= w)%Z /\
    exact_le (of_int w)
      (Model.plastic_waste_per_year 43000 5 (Some (Q2Qc 0.016))) /\
    exact_lt (Model.plastic_waste_per_year 43000 5 (Some (Q2Qc 0.016)))
      (of_int (w + 1)).
Proof.
  split; [at_literals|].
  apply (report_truncates 43000 5 (Q2Qc 0.016)); at_literals.
Defined.

(** X14: for a baseline BMF that is not zero the percent change pc is
    defined and gives back the other BMF: bmf * (1 + pc/100) = bmf_new. *)
Theorem percent_change_round_trip (bmf_new bmf : Qc) :
  bmf <> Q2Qc 0 ->
  exists pc : Qc,
    Model.percent_change (Some bmf_new) (Some bmf) = Some pc /\
    (bmf * (Q2Qc 1 + pc / Q2Qc 100) = bmf_new)%Qc.
Proof.
  intros Hb. unfold Model.percent_change.
  cbn [nsub exact_number exact_lift]. rewrite (exact_div_some _ _ Hb).
  cbn [nmul of_int exact_number exact_lift].
  eexists. split; [reflexivity|].
  change (Qc_of_int 100) with (Q2Qc 100).
  field. repeat split; try assumption; Qc_neq.
Qed.

Lemma percent_change_round_trip_witness :
  Q2Qc 20 <> Q2Qc 0 /\
  exists pc : Qc,
    Model.percent_change (Some (Q2Qc 25)) (Some (Q2Qc 20)) = Some pc /\
    (Q2Qc 20 * (Q2Qc 1 + pc / Q2Qc 100) = Q2Qc 25)%Qc.
Proof.
  split; [at_literals|].
  apply (percent_change_round_trip (Q2Qc 25) (Q2Qc 20)); at_literals.
Defined.
